(** * The TensorFlow backend of TensorNetwork

    A shallow embedding of [tensornetwork/backends/tensorflow/tensorflow_backend.py].
    The class [TensorFlowBackend] is an adapter: every method validates its
    arguments and forwards to the TensorFlow module held in [self.tf].  The
    module itself is not part of the repository, so it is an interface here
    ([Lib]); the adapter is written once, for every implementation of it.

    A method is a computation [Py A]: it takes the state of the world (the
    library's global random generator and the list of library calls issued so
    far), and gives back either a raised exception or a value, with the new
    state.  An exception keeps the effects that happened before it, as in
    Python. *)

From Stdlib Require Import ZArith List String Ascii Bool Lia Floats DecimalString.
Import ListNotations.
Open Scope Z_scope.

(** ** Python values *)

(** Python floats are only passed through by the adapter. *)
Definition PyFloat : Set := float.

(** The exceptions that can leave a method.  [ValueError], [ImportError] and
    [NotImplementedError] are the ones the adapter raises itself;
    [InvalidArgumentError] is [tf.errors.InvalidArgumentError], which is not a
    subclass of [ValueError]; [TypeError] is Python's. *)
Inductive Exn : Type :=
| ImportError (msg : string)
| ValueError (msg : string)
| NotImplementedError (msg : string)
| InvalidArgumentError (msg : string)
| TypeError (msg : string).

(** Python's [str] of an [int]. *)
Definition str_int (z : Z) : string := NilZero.string_of_int (Z.to_int z).

(** Python's truth value of an [Optional[int]]: [None] and [0] are false. *)
Definition truthy (seed : option Z) : bool :=
  match seed with
  | Some s => negb (s =? 0)
  | None => false
  end.

(** ** The wrapped library *)

(** [tf.DType] objects, the values of the [dtype] arguments.  They are
    singletons, so Python's [is] on them is equality of constructors. *)
Inductive DType : Set :=
| float16 | float32 | float64
| complex64 | complex128
| int8 | int16 | int32 | int64
| uint8 | tf_bool.

Definition DType_eqb (a b : DType) : bool :=
  match a, b with
  | float16, float16 | float32, float32 | float64, float64
  | complex64, complex64 | complex128, complex128
  | int8, int8 | int16, int16 | int32, int32 | int64, int64
  | uint8, uint8 | tf_bool, tf_bool => true
  | _, _ => false
  end.

(** [DType.real_dtype]: the dtype of the real part. *)
Definition real_dtype (d : DType) : DType :=
  match d with
  | complex64 => float32
  | complex128 => float64
  | other => other
  end.

(** The part of the TensorFlow module the adapter uses.  Tensors are opaque;
    a tensor of integers that stands for a shape (the result of [tf.shape],
    an argument of [tf.reshape]) is the list of its entries.  Tensors are
    eager ones, whose static shape [t.shape] is fully known.

    The random functions read and advance the global generator [Gen];
    [tf_random_set_seed] reconfigures it.  [entry], [smul] and [of_int] are
    not called by the adapter: they are the observations in which the
    library's documented behaviour is stated below. *)
Record Lib : Type := {
  Tensor : Type;
  Scalar : Type;
  Gen : Type;
  (* attributes of a tensor *)
  t_shape : Tensor -> list Z;
  t_dtype : Tensor -> DType;
  (* Python's str of a shape tensor and of a TensorShape *)
  str_Tensor : list Z -> string;
  str_TensorShape : list Z -> string;
  (* functions of the module *)
  tf_reshape : Tensor -> list Z -> Exn + Tensor;
  tf_slice : Tensor -> list Z -> list Z -> Exn + Tensor;
  tf_concat : list (list Z) -> Z -> Exn + list Z;
  tf_shape : Tensor -> list Z;
  tf_eye : Z -> option Z -> DType -> Exn + Tensor;
  tf_ones : list Z -> DType -> Exn + Tensor;
  tf_zeros : list Z -> DType -> Exn + Tensor;
  tf_random_set_seed : Z -> Gen -> Gen;
  tf_random_normal : list Z -> DType -> Gen -> (Exn + Tensor) * Gen;
  tf_random_uniform :
    list Z -> PyFloat -> PyFloat -> DType -> Gen -> (Exn + Tensor) * Gen;
  tf_complex : Tensor -> Tensor -> Exn + Tensor;
  tf_linalg_inv : Tensor -> Exn + Tensor;
  tf_linalg_expm : Tensor -> Exn + Tensor;
  (* Tensor.__mul__ *)
  tensor_mul : Tensor -> Tensor -> Exn + Tensor;
  (* observations *)
  entry : Tensor -> list Z -> Scalar;
  smul : Scalar -> Scalar -> Scalar;
  of_int : DType -> Z -> Scalar
}.

(** A call into the library, as it is recorded in the world. *)
Inductive Call (L : Lib) : Type :=
| Call_reshape (t : Tensor L) (shape : list Z)
| Call_slice (t : Tensor L) (start size : list Z)
| Call_concat (values : list (list Z)) (axis : Z)
| Call_shape (t : Tensor L)
| Call_eye (num_rows : Z) (num_columns : option Z) (dtype : DType)
| Call_ones (shape : list Z) (dtype : DType)
| Call_zeros (shape : list Z) (dtype : DType)
| Call_set_seed (seed : Z)
| Call_random_normal (shape : list Z) (dtype : DType)
| Call_random_uniform (shape : list Z) (minval maxval : PyFloat) (dtype : DType)
| Call_complex (re im : Tensor L)
| Call_inv (t : Tensor L)
| Call_expm (t : Tensor L)
| Call_mul (a b : Tensor L).

Arguments Call_reshape {L}.
Arguments Call_slice {L}.
Arguments Call_concat {L}.
Arguments Call_shape {L}.
Arguments Call_eye {L}.
Arguments Call_ones {L}.
Arguments Call_zeros {L}.
Arguments Call_set_seed {L}.
Arguments Call_random_normal {L}.
Arguments Call_random_uniform {L}.
Arguments Call_complex {L}.
Arguments Call_inv {L}.
Arguments Call_expm {L}.
Arguments Call_mul {L}.

(** The state a method runs in: the global random generator of the library
    and the calls issued so far, oldest first. *)
Record World (L : Lib) : Type := {
  rng : Gen L;
  calls : list (Call L)
}.

Arguments Build_World {L}.
Arguments rng {L}.
Arguments calls {L}.

(** ** Computations *)

Definition Py (L : Lib) (A : Type) : Type := World L -> (Exn + A) * World L.

Definition ret {L A} (a : A) : Py L A := fun w => (inr a, w).

Definition raise {L A} (e : Exn) : Py L A := fun w => (inl e, w).

Definition bind {L A B} (m : Py L A) (k : A -> Py L B) : Py L B :=
  fun w =>
    match m w with
    | (inr a, w') => k a w'
    | (inl e, w') => (inl e, w')
    end.

Declare Scope py_scope.
Delimit Scope py_scope with py.
Notation "x <- m ;; k" := (bind m (fun x => k))
  (at level 61, m at next level, right associativity) : py_scope.
Notation "m ;; k" := (bind m (fun _ => k))
  (at level 61, right associativity) : py_scope.
Open Scope py_scope.

(** Recording a call. *)
Definition record {L} (c : Call L) (w : World L) : World L :=
  {| rng := rng w; calls := calls w ++ [c] |}.

(** A call of a function of the library that leaves the generator alone. *)
Definition call {L A} (c : Call L) (r : Exn + A) : Py L A :=
  fun w => (r, record c w).

(** A call of a function that draws from the generator. *)
Definition draw {L A} (c : Call L) (f : Gen L -> (Exn + A) * Gen L) : Py L A :=
  fun w =>
    let (r, g) := f (rng w) in
    (r, {| rng := g; calls := calls w ++ [c] |}).

Section Calls.
Context {L : Lib}.

Definition call_reshape (t : Tensor L) (shape : list Z) : Py L (Tensor L) :=
  call (Call_reshape t shape) (tf_reshape L t shape).

Definition call_slice (t : Tensor L) (start size : list Z) : Py L (Tensor L) :=
  call (Call_slice t start size) (tf_slice L t start size).

Definition call_concat (values : list (list Z)) (axis : Z) : Py L (list Z) :=
  call (Call_concat values axis) (tf_concat L values axis).

Definition call_shape (t : Tensor L) : Py L (list Z) :=
  call (Call_shape t) (inr (tf_shape L t)).

Definition call_eye (N : Z) (M : option Z) (dtype : DType) : Py L (Tensor L) :=
  call (Call_eye N M dtype) (tf_eye L N M dtype).

Definition call_ones (shape : list Z) (dtype : DType) : Py L (Tensor L) :=
  call (Call_ones shape dtype) (tf_ones L shape dtype).

Definition call_zeros (shape : list Z) (dtype : DType) : Py L (Tensor L) :=
  call (Call_zeros shape dtype) (tf_zeros L shape dtype).

Definition call_set_seed (seed : Z) : Py L unit :=
  draw (Call_set_seed seed) (fun g => (inr tt, tf_random_set_seed L seed g)).

Definition call_random_normal (shape : list Z) (dtype : DType)
  : Py L (Tensor L) :=
  draw (Call_random_normal shape dtype) (tf_random_normal L shape dtype).

Definition call_random_uniform (shape : list Z) (minval maxval : PyFloat)
    (dtype : DType) : Py L (Tensor L) :=
  draw (Call_random_uniform shape minval maxval dtype)
       (tf_random_uniform L shape minval maxval dtype).

Definition call_complex (re im : Tensor L) : Py L (Tensor L) :=
  call (Call_complex re im) (tf_complex L re im).

Definition call_inv (t : Tensor L) : Py L (Tensor L) :=
  call (Call_inv t) (tf_linalg_inv L t).

Definition call_expm (t : Tensor L) : Py L (Tensor L) :=
  call (Call_expm t) (tf_linalg_expm L t).

Definition call_mul (a b : Tensor L) : Py L (Tensor L) :=
  call (Call_mul a b) (tensor_mul L a b).
End Calls.

(** ** The adapter *)

(** A backend instance: the handle on the library and the name used in
    error messages. *)
Record TensorFlowBackend : Type := {
  tf : Lib;
  name : string
}.

(** [__init__]: the import of TensorFlow either gives the module or fails. *)
Definition __init__ (import_tensorflow : option Lib) : Exn + TensorFlowBackend :=
  match import_tensorflow with
  | None =>
      inl (ImportError
        "Tensorflow not installed, please switch to a different backend or install Tensorflow.")
  | Some m => inr {| tf := m; name := "tensorflow" |}
  end.

(** [dtype if dtype is not None else self.tf.float64] *)
Definition dtype_or_float64 (dtype : option DType) : DType :=
  match dtype with
  | Some d => d
  | None => float64
  end.

(** [(dtype is self.tf.complex128) or (dtype is self.tf.complex64)] *)
Definition is_complex (dtype : DType) : bool :=
  DType_eqb dtype complex128 || DType_eqb dtype complex64.

Section Methods.
Variable self : TensorFlowBackend.
Local Abbreviation L := (tf self).
Local Abbreviation T := (Tensor (tf self)).

Definition reshape (tensor : T) (shape : list Z) : Py L T :=
  call_reshape tensor shape.

Definition slice (tensor : T) (start_indices slice_sizes : list Z) : Py L T :=
  if negb (List.length start_indices =? List.length slice_sizes)%nat then
    raise (ValueError
      "Lengths of start_indices and slice_sizes must beidentical.")
  else call_slice tensor start_indices slice_sizes.

Definition shape_concat (values : list (list Z)) (axis : Z) : Py L (list Z) :=
  call_concat values axis.

Definition shape_tensor (tensor : T) : Py L (list Z) :=
  call_shape tensor.

Definition shape_tuple (tensor : T) : list Z := t_shape L tensor.

Definition eye (N : Z) (dtype : option DType) (M : option Z) : Py L T :=
  let dtype := dtype_or_float64 dtype in
  call_eye N M dtype.

Definition ones (shape : list Z) (dtype : option DType) : Py L T :=
  let dtype := dtype_or_float64 dtype in
  call_ones shape dtype.

Definition zeros (shape : list Z) (dtype : option DType) : Py L T :=
  let dtype := dtype_or_float64 dtype in
  call_zeros shape dtype.

Definition randn (shape : list Z) (dtype : option DType) (seed : option Z)
  : Py L T :=
  match seed with
  | Some s => if truthy seed then call_set_seed s else ret tt
  | None => ret tt
  end ;;
  let dtype := dtype_or_float64 dtype in
  if is_complex dtype then
    re <- call_random_normal shape (real_dtype dtype) ;;
    im <- call_random_normal shape (real_dtype dtype) ;;
    call_complex re im
  else call_random_normal shape dtype.

Definition random_uniform (shape : list Z) (boundaries : PyFloat * PyFloat)
    (dtype : option DType) (seed : option Z) : Py L T :=
  match seed with
  | Some s => if truthy seed then call_set_seed s else ret tt
  | None => ret tt
  end ;;
  let dtype := dtype_or_float64 dtype in
  if is_complex dtype then
    re <- call_random_uniform shape (fst boundaries) (snd boundaries)
            (real_dtype dtype) ;;
    im <- call_random_uniform shape (fst boundaries) (snd boundaries)
            (real_dtype dtype) ;;
    call_complex re im
  else
    call_set_seed 10 ;;
    a <- call_random_uniform shape (fst boundaries) (snd boundaries) dtype ;;
    ret a.

Definition eigs (A : T -> T) (initial_state : option T)
    (num_krylov_vecs numeig : option Z) (tol : option PyFloat)
    (which : option string) (maxiter : option Z) (dtype : option DType)
  : Py L (list T * list T) :=
  raise (NotImplementedError
    ("Backend '" ++ name self ++ "' has not implemented eigs.")%string).

Definition eigsh_lanczos (A : T -> T) (initial_state : option T)
    (num_krylov_vecs numeig : option Z) (tol delta : option PyFloat)
    (ndiag : option Z) (reorthogonalize : option bool)
  : Py L (list T * list T) :=
  raise (NotImplementedError
    ("Backend '" ++ name self ++ "' has not implemented eighs_lanczos.")%string).

Definition multiply (tensor1 tensor2 : T) : Py L T :=
  call_mul tensor1 tensor2.

Definition inv (matrix : T) : Py L T :=
  if (2 <? List.length (t_shape L matrix))%nat then
    s <- call_shape matrix ;;
    raise (ValueError
      ("input to tensorflow backend method `inv` has shape "
       ++ str_Tensor L s ++ ". Only matrices are supported.")%string)
  else call_inv matrix.

Definition broadcast_right_multiplication (tensor1 tensor2 : T) : Py L T :=
  if negb (List.length (t_shape L tensor2) =? 1)%nat then
    s <- call_shape tensor2 ;;
    raise (ValueError
      ("only order-1 tensors are allowed for `tensor2`, found `tensor2.shape = "
       ++ str_Tensor L s ++ "`")%string)
  else call_mul tensor1 tensor2.

Definition broadcast_left_multiplication (tensor1 tensor2 : T) : Py L T :=
  if negb (List.length (t_shape L tensor1) =? 1)%nat then
    s <- call_shape tensor1 ;;
    raise (ValueError
      ("only order-1 tensors are allowed for `tensor1`, found `tensor1.shape = "
       ++ str_Tensor L s ++ "`")%string)
  else
    s1 <- shape_tensor tensor1 ;;
    t1_broadcast_shape <-
      shape_concat
        [s1; repeat 1 (Z.to_nat (Z.of_nat (List.length (t_shape L tensor2)) - 1))]
        (-1) ;;
    r <- reshape tensor1 t1_broadcast_shape ;;
    call_mul tensor2 r.

Definition expm (matrix : T) : Py L T :=
  if negb (List.length (t_shape L matrix) =? 2)%nat then
    raise (ValueError
      ("input to tensorflow backend method `expm` has shape "
       ++ str_TensorShape L (t_shape L matrix)
       ++ ". Only matrices are supported.")%string)
  else
    let d0 := nth 0 (t_shape L matrix) 0 in
    let d1 := nth 1 (t_shape L matrix) 0 in
    if negb (d0 =? d1) then
      raise (ValueError
        ("input to tensorflow backend method `expm` only supportsN*N matrix, "
         ++ str_int d0 ++ "*" ++ str_int d1 ++ " matrix is given")%string)
    else call_expm matrix.
End Methods.

(** ** The documented behaviour of the library

    What the specification says about results (a dtype, a shape, an entry) follows
    from what the adapter passes to the library together with the library's
    own contract.  The parts of the contract that are used are stated here,
    each as a property of an implementation [L]; the theorems that need one
    take it as a hypothesis. *)

(** Number of entries of a shape. *)
Definition numel (shape : list Z) : Z := fold_right Z.mul 1 shape.

(** [idx] is a valid index into a tensor of shape [shape]. *)
Definition in_range (shape idx : list Z) : Prop :=
  Forall2 (fun d i => 0 <= i < d) shape idx.

(** Position of [idx] in row-major order. *)
Fixpoint ravel (shape idx : list Z) : Z :=
  match shape, idx with
  | _ :: s, i :: r => i * numel s + ravel s r
  | _, _ => 0
  end.

(** The index at a row-major position. *)
Fixpoint unravel (shape : list Z) (k : Z) : list Z :=
  match shape with
  | [] => []
  | _ :: s => k / numel s :: unravel s (k mod numel s)
  end.

(** Broadcasting of two dimensions: equal, or one of them is 1. *)
Definition broadcast_dim (x y : Z) : option Z :=
  if x =? y then Some x
  else if x =? 1 then Some y
  else if y =? 1 then Some x
  else None.

Fixpoint broadcast_dims (a b : list Z) : option (list Z) :=
  match a, b with
  | [], [] => Some []
  | x :: a', y :: b' =>
      match broadcast_dim x y, broadcast_dims a' b' with
      | Some d, Some r => Some (d :: r)
      | _, _ => None
      end
  | _, _ => None
  end.

(** A shape extended on the left with 1s to rank [n]. *)
Definition pad_left (n : nat) (s : list Z) : list Z :=
  repeat 1 (n - List.length s) ++ s.

(** The shape of an element-wise operation on shapes [a] and [b]: the
    shapes are aligned on their last axes. *)
Definition broadcast_shape (a b : list Z) : option (list Z) :=
  let n := Nat.max (List.length a) (List.length b) in
  broadcast_dims (pad_left n a) (pad_left n b).

Fixpoint clamp (s idx : list Z) : list Z :=
  match s, idx with
  | d :: s', i :: r => (if d =? 1 then 0 else i) :: clamp s' r
  | _, _ => []
  end.

(** The index into an operand of shape [s] that an index [idx] of the
    broadcast result reads. *)
Definition bidx (s idx : list Z) : list Z :=
  clamp s (skipn (List.length idx - List.length s) idx).

Section Contract.
Variable L : Lib.

(** [tf.random.set_seed] replaces the state of the global generator: what
    is drawn afterwards depends on the seed only. *)
Definition set_seed_resets : Prop :=
  forall s g g', tf_random_set_seed L s g = tf_random_set_seed L s g'.

(** A constructed tensor has the dtype that was asked for. *)
Definition constructors_keep_dtype : Prop :=
  (forall N M d t, tf_eye L N M d = inr t -> t_dtype L t = d) /\
  (forall s d t, tf_ones L s d = inr t -> t_dtype L t = d) /\
  (forall s d t, tf_zeros L s d = inr t -> t_dtype L t = d).

(** [tf.eye]: [num_columns] defaults to [num_rows]; the result has ones on
    the main diagonal and zeros elsewhere. *)
Definition eye_documented : Prop :=
  forall N M d,
    0 <= N -> (forall m, M = Some m -> 0 <= m) ->
    exists t,
      tf_eye L N M d = inr t /\
      let cols := match M with Some m => m | None => N end in
      t_shape L t = [N; cols] /\
      forall i j, 0 <= i < N -> 0 <= j < cols ->
        entry L t [i; j] = of_int L d (if i =? j then 1 else 0).

(** [tf.shape] of an eager tensor is its static shape. *)
Definition shape_is_static : Prop :=
  forall t, tf_shape L t = t_shape L t.

(** [tf.concat] of one-dimensional values along their only axis. *)
Definition concat_appends : Prop :=
  forall a b, tf_concat L [a; b] (-1) = inr (a ++ b).

(** [tf.reshape] keeps the entries in row-major order. *)
Definition reshape_row_major : Prop :=
  forall t s,
    Forall (fun d => 0 <= d) s -> numel s = numel (t_shape L t) ->
    exists r,
      tf_reshape L t s = inr r /\ t_shape L r = s /\
      t_dtype L r = t_dtype L t /\
      forall idx idx',
        in_range (t_shape L t) idx -> in_range s idx' ->
        ravel s idx' = ravel (t_shape L t) idx ->
        entry L r idx' = entry L t idx.

(** [*] on tensors of one dtype multiplies entry by entry, with
    broadcasting. *)
Definition mul_broadcasts : Prop :=
  forall a b s,
    t_dtype L a = t_dtype L b ->
    broadcast_shape (t_shape L a) (t_shape L b) = Some s ->
    exists c,
      tensor_mul L a b = inr c /\ t_shape L c = s /\
      forall idx, in_range s idx ->
        entry L c idx =
        smul L (entry L a (bidx (t_shape L a) idx))
               (entry L b (bidx (t_shape L b) idx)).
End Contract.

(** ** A reference implementation of the interface

    [Ref] implements [Lib] with tensors whose entries are symbolic: a
    literal, a sample of the generator, or an operation on entries.  It
    follows the argument checks TensorFlow documents (shapes, dtypes, the
    kind of error raised; the texts of the library's messages are
    shortened) and never invents a number.  The adapter is run against it
    on concrete inputs. *)
Module Ref.

Inductive Dist : Set :=
| Normal
| Uniform (minval maxval : PyFloat).

Inductive Op : Set := Inverse | Exponential.

Inductive RScalar : Type :=
| Lit (d : DType) (z : Z)
| Sample (dist : Dist) (d : DType) (seed counter position : Z)
| ComplexOf (re im : RScalar)
| Product (a b : RScalar)
| Linalg (op : Op) (shape : list Z) (arg : list Z -> RScalar) (idx : list Z).

Record RTensor : Type := {
  r_shape : list Z;
  r_dtype : DType;
  r_at : list Z -> RScalar
}.

(** The global generator: the seed and the number of draws since it was
    set. *)
Record RGen : Set := {
  g_seed : Z;
  g_count : Z
}.

Definition all_nonneg (s : list Z) : bool := forallb (fun d => 0 <=? d) s.

Definition is_float (d : DType) : bool :=
  match d with
  | float16 | float32 | float64 => true
  | _ => false
  end.

Definition is_inexact (d : DType) : bool :=
  match d with
  | float16 | float32 | float64 | complex64 | complex128 => true
  | _ => false
  end.

Fixpoint join (sep : string) (l : list string) : string :=
  match l with
  | [] => ""
  | [x] => x
  | x :: r => x ++ sep ++ join sep r
  end.

Definition show_TensorShape (s : list Z) : string :=
  match s with
  | [d] => "(" ++ str_int d ++ ",)"
  | _ => "(" ++ join ", " (map str_int s) ++ ")"
  end.

Definition show_Tensor (s : list Z) : string :=
  "tf.Tensor([" ++ join " " (map str_int s) ++ "], shape=("
  ++ str_int (Z.of_nat (List.length s)) ++ ",), dtype=int32)".

(** The target shape of a reshape of [n] entries; one dimension may be
    given as -1 and is then inferred. *)
Definition infer_shape (n : Z) (s : list Z) : option (list Z) :=
  if all_nonneg s then
    if numel s =? n then Some s else None
  else
    let known := filter (fun d => negb (d =? -1)) s in
    if (count_occ Z.eq_dec s (-1)%Z =? 1)%nat && all_nonneg known
       && (0 <? numel known) && (n mod numel known =? 0)
    then Some (map (fun d => if d =? -1 then n / numel known else d) s)
    else None.

Definition reshape (t : RTensor) (s : list Z) : Exn + RTensor :=
  match infer_shape (numel (r_shape t)) s with
  | Some s' =>
      inr {| r_shape := s'; r_dtype := r_dtype t;
             r_at := fun idx => r_at t (unravel (r_shape t) (ravel s' idx)) |}
  | None =>
      inl (InvalidArgumentError
             "Input to reshape is a tensor whose size does not match the requested shape")
  end.

Fixpoint slice_shape (dims start size : list Z) : option (list Z) :=
  match dims, start, size with
  | [], [], [] => Some []
  | d :: ds, b :: bs, z :: zs =>
      let z' := if z =? -1 then d - b else z in
      if (0 <=? b) && (0 <=? z') && (b + z' <=? d)
      then option_map (cons z') (slice_shape ds bs zs)
      else None
  | _, _, _ => None
  end.

Fixpoint offset (start idx : list Z) : list Z :=
  match start, idx with
  | b :: bs, i :: r => b + i :: offset bs r
  | _, _ => []
  end.

Definition slice (t : RTensor) (start size : list Z) : Exn + RTensor :=
  match slice_shape (r_shape t) start size with
  | Some s =>
      inr {| r_shape := s; r_dtype := r_dtype t;
             r_at := fun idx => r_at t (offset start idx) |}
  | None =>
      inl (InvalidArgumentError "Expected begin and size arguments within the input")
  end.

Definition concat (values : list (list Z)) (axis : Z) : Exn + list Z :=
  match values with
  | [] => inl (ValueError "List argument 'values' must have at least 1 element")
  | _ =>
      if (axis =? 0) || (axis =? -1) then inr (List.concat values)
      else inl (InvalidArgumentError "ConcatOp : Expected concatenating dimensions in the range [-1, 1)")
  end.

Definition eye (N : Z) (M : option Z) (d : DType) : Exn + RTensor :=
  let cols := match M with Some m => m | None => N end in
  if (0 <=? N) && (0 <=? cols) then
    inr {| r_shape := [N; cols]; r_dtype := d;
           r_at := fun idx =>
             match idx with
             | [i; j] => Lit d (if i =? j then 1 else 0)
             | _ => Lit d 0
             end |}
  else inl (InvalidArgumentError "Dimension must be non-negative").

Definition fill (z : Z) (s : list Z) (d : DType) : Exn + RTensor :=
  if all_nonneg s then
    inr {| r_shape := s; r_dtype := d; r_at := fun _ => Lit d z |}
  else inl (InvalidArgumentError "Dimension must be non-negative").

Definition set_seed (s : Z) (g : RGen) : RGen :=
  {| g_seed := s; g_count := 0 |}.

Definition sample (dist : Dist) (allowed : DType -> bool) (s : list Z)
    (d : DType) (g : RGen) : (Exn + RTensor) * RGen :=
  if negb (allowed d) then
    (inl (TypeError "Value passed to parameter 'dtype' is not in the list of allowed values"), g)
  else if negb (all_nonneg s) then
    (inl (InvalidArgumentError "Dimension must be non-negative"), g)
  else
    (inr {| r_shape := s; r_dtype := d;
            r_at := fun idx =>
              Sample dist d (g_seed g) (g_count g) (ravel s idx) |},
     {| g_seed := g_seed g; g_count := g_count g + 1 |}).

Definition random_normal : list Z -> DType -> RGen -> (Exn + RTensor) * RGen :=
  sample Normal is_float.

Definition random_uniform (s : list Z) (minval maxval : PyFloat)
  : DType -> RGen -> (Exn + RTensor) * RGen :=
  sample (Uniform minval maxval)
         (fun d => is_float d || DType_eqb d int32 || DType_eqb d int64) s.

Definition complex_dtype (re im : DType) : option DType :=
  match re, im with
  | float32, float32 => Some complex64
  | float64, float64 => Some complex128
  | _, _ => None
  end.

Definition complex (re im : RTensor) : Exn + RTensor :=
  match complex_dtype (r_dtype re) (r_dtype im),
        broadcast_shape (r_shape re) (r_shape im) with
  | Some d, Some s =>
      inr {| r_shape := s; r_dtype := d;
             r_at := fun idx =>
               ComplexOf (r_at re (bidx (r_shape re) idx))
                         (r_at im (bidx (r_shape im) idx)) |}
  | None, _ => inl (TypeError "Input 'imag' of 'Complex' Op has a type that does not match")
  | _, None => inl (InvalidArgumentError "Incompatible shapes")
  end.

(** [tf.linalg.inv] and [tf.linalg.expm] work on the last two axes, which
    must be equal; leading axes are batch axes.  Entries must be floating
    point or complex. *)
Definition linalg (op : Op) (t : RTensor) : Exn + RTensor :=
  if negb (is_inexact (r_dtype t)) then
    match op with
    | Inverse =>
        inl (InvalidArgumentError "Could not find device for node: MatrixInverse")
    | Exponential =>
        inl (ValueError "tf.linalg.expm does not support matrices of this type")
    end
  else
    match rev (r_shape t) with
    | n :: m :: _ =>
        if n =? m then
          inr {| r_shape := r_shape t; r_dtype := r_dtype t;
                 r_at := Linalg op (r_shape t) (r_at t) |}
        else inl (InvalidArgumentError "Input matrix must be square.")
    | _ => inl (InvalidArgumentError "Input tensor must have rank >= 2")
    end.

Definition mul (a b : RTensor) : Exn + RTensor :=
  if negb (DType_eqb (r_dtype a) (r_dtype b)) then
    inl (InvalidArgumentError "cannot compute Mul as the inputs have different dtypes")
  else
    match broadcast_shape (r_shape a) (r_shape b) with
    | Some s =>
        inr {| r_shape := s; r_dtype := r_dtype a;
               r_at := fun idx =>
                 Product (r_at a (bidx (r_shape a) idx))
                         (r_at b (bidx (r_shape b) idx)) |}
    | None => inl (InvalidArgumentError "Incompatible shapes")
    end.

Definition lib : Lib := {|
  Tensor := RTensor;
  Scalar := RScalar;
  Gen := RGen;
  t_shape := r_shape;
  t_dtype := r_dtype;
  str_Tensor := show_Tensor;
  str_TensorShape := show_TensorShape;
  tf_reshape := reshape;
  tf_slice := slice;
  tf_concat := concat;
  tf_shape := r_shape;
  tf_eye := eye;
  tf_ones := fill 1;
  tf_zeros := fill 0;
  tf_random_set_seed := set_seed;
  tf_random_normal := random_normal;
  tf_random_uniform := random_uniform;
  tf_complex := complex;
  tf_linalg_inv := linalg Inverse;
  tf_linalg_expm := linalg Exponential;
  tensor_mul := mul;
  entry := r_at;
  smul := Product;
  of_int := Lit
|}.

(** The backend that [__init__] builds when the import gives [lib]. *)
Definition backend : TensorFlowBackend := {| tf := lib; name := "tensorflow" |}.

(** A world to start from: an unseeded generator, no call yet. *)
Definition world0 : World lib :=
  @Build_World lib {| g_seed := 2019; g_count := 0 |} [].

(** Some tensors. *)
Definition lit (s : list Z) (d : DType) (f : list Z -> Z) : RTensor :=
  {| r_shape := s; r_dtype := d; r_at := fun idx => Lit d (f idx) |}.

End Ref.

(** ** Notions used in the statements *)

(** Whether an outcome is a raised [ValueError], the exception the adapter
    uses for a malformed argument. *)
Definition raises_ValueError {A} (r : Exn + A) : bool :=
  match r with
  | inl (ValueError _) => true
  | _ => false
  end.

(** Whether an outcome is a raised [NotImplementedError]. *)
Definition raises_NotImplementedError {A} (r : Exn + A) : bool :=
  match r with
  | inl (NotImplementedError _) => true
  | _ => false
  end.

(** [needle in hay] of Python strings. *)
Definition contains (needle hay : string) : bool :=
  match index 0 needle hay with
  | Some _ => true
  | None => false
  end.

(** The seeds of the [tf.random.set_seed] calls of a trace, in order. *)
Definition set_seeds {L} (cs : list (Call L)) : list Z :=
  flat_map (fun c => match c with Call_set_seed s => [s] | _ => [] end) cs.

(** The world after [tf.random.set_seed(s)]. *)
Definition reseeded {L} (s : Z) (w : World L) : World L :=
  {| rng := tf_random_set_seed L s (rng w);
     calls := calls w ++ [Call_set_seed s] |}.

(** The world after a draw that left the generator in state [g]. *)
Definition drawn {L} (c : Call L) (g : Gen L) (w : World L) : World L :=
  {| rng := g; calls := calls w ++ [c] |}.

(** The world after [if seed: self.tf.random.set_seed(seed)]. *)
Definition after_seed {L} (seed : option Z) (w : World L) : World L :=
  match seed with
  | Some s => if s =? 0 then w else reseeded s w
  | None => w
  end.

(** Inputs on which the adapter is run against [Ref]. *)
Module Sample.

(** Entry [idx] is the row-major position of [idx], so entries differ. *)
Definition iota (s : list Z) : Tensor Ref.lib :=
  Ref.lit s float64 (ravel s).

Definition m23 : Tensor Ref.lib := iota [2; 3].
Definition m22 : Tensor Ref.lib := iota [2; 2].
Definition t234 : Tensor Ref.lib := iota [2; 3; 4].
Definition v2 : Tensor Ref.lib := Ref.lit [2] float64 (fun idx => 10 + ravel [2] idx).
Definition v3 : Tensor Ref.lib := Ref.lit [3] float64 (fun idx => 10 + ravel [3] idx).

Definition unit_interval : PyFloat * PyFloat := (0%float, 1%float).

End Sample.

(** ** The documented behaviour of the random functions *)

(** The floating point dtypes. *)
Definition floating (d : DType) : bool :=
  match d with
  | float16 | float32 | float64 => true
  | _ => false
  end.

Section RandomContract.
Variable L : Lib.

(** [tf.random.normal] and [tf.random.uniform] give a tensor of the shape
    and of the floating point dtype they are asked for. *)
Definition draws_documented : Prop :=
  forall shape d g,
    Forall (fun n => 0 <= n) shape -> floating d = true ->
    (exists t g',
       tf_random_normal L shape d g = (inr t, g') /\
       t_shape L t = shape /\ t_dtype L t = d) /\
    (forall minval maxval, exists t g',
       tf_random_uniform L shape minval maxval d g = (inr t, g') /\
       t_shape L t = shape /\ t_dtype L t = d).

(** [tf.complex] of a real and an imaginary part of one shape, both
    [float32] or both [float64], is a tensor of that shape, [complex64] or
    [complex128]. *)
Definition complex_documented : Prop :=
  forall re im d,
    d = complex64 \/ d = complex128 ->
    t_shape L re = t_shape L im ->
    t_dtype L re = real_dtype d -> t_dtype L im = real_dtype d ->
    exists c,
      tf_complex L re im = inr c /\
      t_shape L c = t_shape L re /\ t_dtype L c = d.
End RandomContract.

(** The seed that a call passes to [tf.random.set_seed], if any. *)
Definition seed_used (seed : option Z) : list Z :=
  match seed with
  | Some s => if s =? 0 then [] else [s]
  | None => []
  end.

(** Two runs agree on what a caller can observe: the outcome and the state
    the generator is left in. *)
Definition same_outcome {L A} (x y : (Exn + A) * World L) : Prop :=
  fst x = fst y /\ rng (snd x) = rng (snd y).

(** A computation whose observable behaviour depends on the world through
    the generator only, not through the record of earlier calls. *)
Definition reads_generator_only {L A} (m : Py L A) : Prop :=
  forall w1 w2, rng w1 = rng w2 -> same_outcome (m w1) (m w2).

(** A square matrix of integers. *)
Definition m22_int32 : Tensor Ref.lib := Ref.lit [2; 2] int32 (ravel [2; 2]).

(** A tensor without axes, with the one entry 3. *)
Definition scalar3 : Tensor Ref.lib := Ref.lit [] float64 (fun _ => 3).

(** The calls that read or set the global generator. *)
Definition touches_generator {L} (c : Call L) : bool :=
  match c with
  | Call_set_seed _ | Call_random_normal _ _ | Call_random_uniform _ _ _ _ => true
  | _ => false
  end.

(** A computation that issues no such call and leaves the generator in the
    state it found it in. *)
Definition leaves_generator_alone {L A} (m : Py L A) : Prop :=
  forall w,
    rng (snd (m w)) = rng w /\
    filter touches_generator (calls (snd (m w))) =
    filter touches_generator (calls w).

(** * Facts about indices *)

Lemma numel_cons (d : Z) (s : list Z) : numel (d :: s) = d * numel s.
Proof. reflexivity. Qed.

Lemma numel_app (a b : list Z) : numel (a ++ b) = numel a * numel b.
Proof.
  induction a as [|x a IH].
  - change (numel b = 1 * numel b). lia.
  - change (numel (x :: a ++ b) = numel (x :: a) * numel b).
    rewrite !numel_cons, IH. lia.
Qed.

Lemma numel_repeat_1 (k : nat) : numel (repeat 1 k) = 1.
Proof.
  induction k as [|k IH]; [reflexivity|].
  change (numel (1 :: repeat 1 k) = 1). rewrite numel_cons, IH. reflexivity.
Qed.

Lemma ravel_bound (s idx : list Z) :
  in_range s idx -> 0 <= ravel s idx < numel s.
Proof.
  induction 1 as [|d i s r Hi _ IH]; simpl.
  - lia.
  - nia.
Qed.

Lemma unravel_ravel (s idx : list Z) :
  in_range s idx -> unravel s (ravel s idx) = idx.
Proof.
  induction 1 as [|d i s r Hi Hr IH]; simpl.
  - reflexivity.
  - pose proof (ravel_bound s r Hr) as Hb.
    rewrite Z.div_add_l by lia.
    rewrite Z.div_small by lia.
    rewrite (Z.add_comm (i * numel s)), Z.mod_add by lia.
    rewrite Z.mod_small by lia.
    rewrite IH. f_equal. lia.
Qed.

Lemma in_range_length (s idx : list Z) :
  in_range s idx -> List.length idx = List.length s.
Proof. intros H. symmetry. exact (Forall2_length H). Qed.

(** An index in range is left alone by the clamping of broadcasting. *)
Lemma clamp_in_range (s idx : list Z) : in_range s idx -> clamp s idx = idx.
Proof.
  induction 1 as [|d i s r Hi _ IH]; simpl.
  - reflexivity.
  - rewrite IH. destruct (Z.eqb_spec d 1); [f_equal; lia | reflexivity].
Qed.

Lemma bidx_same_rank (s idx : list Z) : in_range s idx -> bidx s idx = idx.
Proof.
  intros H. unfold bidx. rewrite (in_range_length _ _ H), Nat.sub_diag.
  simpl. apply clamp_in_range, H.
Qed.

Lemma broadcast_dim_1_r (d : Z) : broadcast_dim d 1 = Some d.
Proof.
  unfold broadcast_dim.
  destruct (Z.eqb_spec d 1); [subst; reflexivity | reflexivity].
Qed.

Lemma broadcast_dim_same (d : Z) : broadcast_dim d d = Some d.
Proof. unfold broadcast_dim. rewrite Z.eqb_refl. reflexivity. Qed.

Lemma broadcast_dims_ones_r (s : list Z) :
  broadcast_dims s (repeat 1 (List.length s)) = Some s.
Proof.
  induction s as [|d s IH]; simpl.
  - reflexivity.
  - rewrite broadcast_dim_1_r, IH. reflexivity.
Qed.

(** * The reference implementation meets the contract *)

Lemma DType_eqb_eq (a b : DType) : DType_eqb a b = true <-> a = b.
Proof. split; [destruct a, b; simpl; congruence | intros ->; destruct b; reflexivity]. Qed.

Lemma all_nonneg_Forall (s : list Z) :
  Forall (fun d => 0 <= d) s -> Ref.all_nonneg s = true.
Proof.
  intros H. apply forallb_forall. rewrite Forall_forall in H.
  intros d Hd. apply Z.leb_le, H, Hd.
Qed.

Lemma Ref_set_seed_resets : set_seed_resets Ref.lib.
Proof. intros s g g'. reflexivity. Qed.

Lemma Ref_constructors_keep_dtype : constructors_keep_dtype Ref.lib.
Proof.
  repeat split; simpl.
  - intros N M d t. unfold Ref.eye.
    destruct (_ && _); intros [= <-]; reflexivity.
  - intros s d t. unfold Ref.fill.
    destruct (Ref.all_nonneg s); intros [= <-]; reflexivity.
  - intros s d t. unfold Ref.fill.
    destruct (Ref.all_nonneg s); intros [= <-]; reflexivity.
Qed.

Lemma Ref_eye_documented : eye_documented Ref.lib.
Proof.
  intros N M d HN HM. simpl. unfold Ref.eye.
  assert (Hc : 0 <= match M with Some m => m | None => N end)
    by (destruct M as [m|]; [apply HM; reflexivity | exact HN]).
  apply Z.leb_le in HN. apply Z.leb_le in Hc. rewrite HN, Hc. simpl.
  eexists. split; [reflexivity|]. split; reflexivity.
Qed.

Lemma Ref_shape_is_static : shape_is_static Ref.lib.
Proof. intros t. reflexivity. Qed.

Lemma Ref_concat_appends : concat_appends Ref.lib.
Proof. intros a b. simpl. rewrite app_nil_r. reflexivity. Qed.

Lemma Ref_reshape_row_major : reshape_row_major Ref.lib.
Proof.
  intros t s Hs Hn. simpl in *. unfold Ref.reshape, Ref.infer_shape.
  rewrite (all_nonneg_Forall s Hs).
  apply Z.eqb_eq in Hn. rewrite Hn.
  eexists. split; [reflexivity|]. simpl. repeat split.
  intros idx idx' Hidx _ Heq. rewrite Heq, unravel_ravel by exact Hidx.
  reflexivity.
Qed.

Lemma Ref_mul_broadcasts : mul_broadcasts Ref.lib.
Proof.
  intros a b s Hd Hs. simpl in *. unfold Ref.mul.
  apply DType_eqb_eq in Hd. rewrite Hd, Hs. simpl.
  eexists. split; [reflexivity|]. simpl. split; reflexivity.
Qed.

(** * Running the adapter *)

Ltac run_py :=
  unfold reshape, shape_concat, shape_tensor, multiply,
    call_reshape, call_slice, call_concat, call_shape, call_eye, call_ones,
    call_zeros, call_set_seed, call_random_normal, call_random_uniform,
    call_complex, call_inv, call_expm, call_mul,
    bind, call, draw, raise, ret, record, reseeded, drawn in *.

(** What [if seed: self.tf.random.set_seed(seed)] does to the world. *)
Lemma seed_statement {L} (seed : option Z) (w : World L) :
  match seed with
  | Some s => if truthy seed then call_set_seed s else ret tt
  | None => ret tt
  end w
  = (inr tt, after_seed seed w).
Proof.
  destruct seed as [s|]; simpl; [|reflexivity].
  destruct (s =? 0); reflexivity.
Qed.

(** * Argument validation *)

(** C4: [slice] raises a [ValueError] when [start_indices] and
    [slice_sizes] have different lengths, without calling the library; when
    the lengths are equal the check passes and the call is forwarded to
    [tf.slice]: one call, with the same arguments, whose outcome is the
    outcome of [slice]. *)
Theorem slice_checks_lengths (self : TensorFlowBackend)
    (tensor : Tensor (tf self)) (start_indices slice_sizes : list Z)
    (w : World (tf self)) :
  (List.length start_indices <> List.length slice_sizes ->
   slice self tensor start_indices slice_sizes w =
   (inl (ValueError "Lengths of start_indices and slice_sizes must beidentical."),
    w)) /\
  (List.length start_indices = List.length slice_sizes ->
   slice self tensor start_indices slice_sizes w =
   (tf_slice (tf self) tensor start_indices slice_sizes,
    record (Call_slice tensor start_indices slice_sizes) w)).
Proof.
  unfold slice. split; intros H.
  - apply Nat.eqb_neq in H. rewrite H. reflexivity.
  - apply Nat.eqb_eq in H. rewrite H. reflexivity.
Qed.

Lemma slice_checks_lengths_witness :
  slice Ref.backend Sample.t234 [0; 0] [1; 1; 1] Ref.world0 =
  (inl (ValueError "Lengths of start_indices and slice_sizes must beidentical."),
   Ref.world0) /\
  slice Ref.backend Sample.t234 [0; 1; 2] [2; 2; -1] Ref.world0 =
  (tf_slice Ref.lib Sample.t234 [0; 1; 2] [2; 2; -1],
   record (Call_slice Sample.t234 [0; 1; 2] [2; 2; -1]) Ref.world0).
Proof.
  split.
  - apply (proj1 (slice_checks_lengths Ref.backend Sample.t234
                    [0; 0] [1; 1; 1] Ref.world0)).
    simpl. lia.
  - apply (proj2 (slice_checks_lengths Ref.backend Sample.t234
                    [0; 1; 2] [2; 2; -1] Ref.world0)).
    reflexivity.
Defined.

(** On the reference library the forwarded slice is the block that starts
    at [0, 1, 2]. *)
Example slice_forwarded_value :
  match fst (slice Ref.backend Sample.t234 [0; 1; 2] [2; 2; -1] Ref.world0) with
  | inr t => Ref.r_shape t = [2; 2; 2] /\ Ref.r_at t [1; 0; 1] = Ref.Lit float64 19
  | inl _ => False
  end.
Proof. simpl. split; reflexivity. Qed.

(** C1, as the code has it: [inv] raises a [ValueError] exactly when the
    input has more than two axes (the message is built from one call of
    [tf.shape]; [tf.linalg.inv] is not called).  An input with at most two
    axes, square or not, passes: [inv] issues one call of [tf.linalg.inv]
    and its outcome, a tensor or an exception, is the library's. *)
Theorem inv_guards_rank_only (self : TensorFlowBackend)
    (matrix : Tensor (tf self)) (w : World (tf self)) :
  ((2 < List.length (t_shape (tf self) matrix))%nat ->
   inv self matrix w =
   (inl (ValueError
      ("input to tensorflow backend method `inv` has shape "
       ++ str_Tensor (tf self) (tf_shape (tf self) matrix)
       ++ ". Only matrices are supported.")%string),
    record (Call_shape matrix) w)) /\
  ((List.length (t_shape (tf self) matrix) <= 2)%nat ->
   inv self matrix w =
   (tf_linalg_inv (tf self) matrix, record (Call_inv matrix) w)).
Proof.
  unfold inv. split; intros H.
  - apply Nat.ltb_lt in H. rewrite H. reflexivity.
  - apply Nat.ltb_ge in H. rewrite H. reflexivity.
Qed.

Lemma inv_guards_rank_only_witness :
  raises_ValueError (fst (inv Ref.backend Sample.t234 Ref.world0)) = true /\
  inv Ref.backend Sample.m22 Ref.world0 =
  (tf_linalg_inv Ref.lib Sample.m22, record (Call_inv Sample.m22) Ref.world0).
Proof.
  split.
  - rewrite (proj1 (inv_guards_rank_only Ref.backend Sample.t234 Ref.world0))
      by (simpl; lia).
    reflexivity.
  - apply (proj2 (inv_guards_rank_only Ref.backend Sample.m22 Ref.world0)).
    simpl. lia.
Defined.

(** C1, as the specification has it, fails: a 2-by-3 matrix is not square, yet [inv]
    raises no [ValueError] for it.  The input reaches [tf.linalg.inv], and
    the exception is the library's [InvalidArgumentError]. *)
Lemma inv_forwards_non_square :
  t_shape Ref.lib Sample.m23 = [2; 3] /\
  inv Ref.backend Sample.m23 Ref.world0 =
  (inl (InvalidArgumentError "Input matrix must be square."),
   record (Call_inv Sample.m23) Ref.world0) /\
  raises_ValueError (fst (inv Ref.backend Sample.m23 Ref.world0)) = false.
Proof. repeat split. Qed.

(** C5, as the code has it: [expm] raises a [ValueError] when the input
    does not have exactly two axes, and when it has two axes of different
    sizes; in both cases the library is not called.  For a square matrix
    both checks pass and the call is delegated: one call of
    [tf.linalg.expm], whose outcome is the outcome of [expm].  So [expm]
    returns the tensor the library returns and raises the exception the
    library raises. *)
Theorem expm_validates_square_matrix (self : TensorFlowBackend)
    (matrix : Tensor (tf self)) (w : World (tf self)) :
  (List.length (t_shape (tf self) matrix) <> 2%nat ->
   expm self matrix w =
   (inl (ValueError
      ("input to tensorflow backend method `expm` has shape "
       ++ str_TensorShape (tf self) (t_shape (tf self) matrix)
       ++ ". Only matrices are supported.")%string),
    w)) /\
  (forall d0 d1, t_shape (tf self) matrix = [d0; d1] -> d0 <> d1 ->
   expm self matrix w =
   (inl (ValueError
      ("input to tensorflow backend method `expm` only supportsN*N matrix, "
       ++ str_int d0 ++ "*" ++ str_int d1 ++ " matrix is given")%string),
    w)) /\
  (forall n, t_shape (tf self) matrix = [n; n] ->
   expm self matrix w =
   (tf_linalg_expm (tf self) matrix, record (Call_expm matrix) w)) /\
  (forall n r, t_shape (tf self) matrix = [n; n] ->
   tf_linalg_expm (tf self) matrix = inr r ->
   fst (expm self matrix w) = inr r) /\
  (forall n e, t_shape (tf self) matrix = [n; n] ->
   tf_linalg_expm (tf self) matrix = inl e ->
   fst (expm self matrix w) = inl e).
Proof.
  unfold expm. split; [|split; [|split; [|split]]].
  - intros H. apply Nat.eqb_neq in H. rewrite H. reflexivity.
  - intros d0 d1 Hs Hd. rewrite Hs. simpl.
    apply Z.eqb_neq in Hd. rewrite Hd. reflexivity.
  - intros n Hs. rewrite Hs. simpl. rewrite Z.eqb_refl. reflexivity.
  - intros n r Hs Hr. rewrite Hs. simpl. rewrite Z.eqb_refl. simpl.
    exact Hr.
  - intros n e Hs He. rewrite Hs. simpl. rewrite Z.eqb_refl. simpl.
    exact He.
Qed.

Lemma expm_validates_square_matrix_witness :
  raises_ValueError (fst (expm Ref.backend Sample.t234 Ref.world0)) = true /\
  raises_ValueError (fst (expm Ref.backend Sample.v3 Ref.world0)) = true /\
  raises_ValueError (fst (expm Ref.backend Sample.m23 Ref.world0)) = true /\
  expm Ref.backend Sample.m22 Ref.world0 =
  (tf_linalg_expm Ref.lib Sample.m22, record (Call_expm Sample.m22) Ref.world0) /\
  (exists r, fst (expm Ref.backend Sample.m22 Ref.world0) = inr r) /\
  (exists e, fst (expm Ref.backend m22_int32 Ref.world0) = inl e /\
             tf_linalg_expm Ref.lib m22_int32 = inl e).
Proof.
  pose proof (expm_validates_square_matrix Ref.backend Sample.t234 Ref.world0)
    as [H3 _].
  pose proof (expm_validates_square_matrix Ref.backend Sample.v3 Ref.world0)
    as [H1 _].
  pose proof (expm_validates_square_matrix Ref.backend Sample.m23 Ref.world0)
    as [_ [Hn _]].
  pose proof (expm_validates_square_matrix Ref.backend Sample.m22 Ref.world0)
    as [_ [_ [Hq [Hr _]]]].
  pose proof (expm_validates_square_matrix Ref.backend m22_int32 Ref.world0)
    as [_ [_ [_ [_ He]]]].
  split; [|split; [|split; [|split; [|split]]]].
  - rewrite H3 by (simpl; lia). reflexivity.
  - rewrite H1 by (simpl; lia). reflexivity.
  - rewrite (Hn 2 3) by (reflexivity || lia). reflexivity.
  - apply (Hq 2). reflexivity.
  - eexists. apply (Hr 2); reflexivity.
  - eexists. split; [apply (He 2); reflexivity | reflexivity].
Defined.

(** C5, as the specification has it, fails: a 2-by-2 matrix of [int32]
    entries is a square matrix with two axes, and both checks of [expm]
    pass for it (the call of [tf.linalg.expm] is issued), yet the call does
    not succeed: the library refuses the dtype and [expm] raises the
    library's exception. *)
Lemma expm_square_matrix_can_raise :
  t_shape Ref.lib m22_int32 = [2; 2] /\
  expm Ref.backend m22_int32 Ref.world0 =
  (inl (ValueError "tf.linalg.expm does not support matrices of this type"),
   record (Call_expm m22_int32) Ref.world0) /\
  tf_linalg_expm Ref.lib m22_int32 =
  inl (ValueError "tf.linalg.expm does not support matrices of this type").
Proof. split; [|split]; reflexivity. Qed.

(** * Operations this backend does not implement *)

(** C3: on a backend built by [__init__], [eigs] and [eigsh_lanczos] raise
    a [NotImplementedError] for all arguments and in every world, and leave
    the world as it was.  Both messages name the backend.  The message of
    [eigs] names the operation; the message of [eigsh_lanczos] spells it
    [eighs_lanczos], so the name of the operation does not occur in it. *)
Theorem eigs_eigsh_lanczos_not_implemented
    (import_tensorflow : option Lib) (self : TensorFlowBackend)
    (Hinit : __init__ import_tensorflow = inr self)
    (A : Tensor (tf self) -> Tensor (tf self))
    (initial_state : option (Tensor (tf self)))
    (num_krylov_vecs numeig maxiter ndiag : option Z)
    (tol delta : option PyFloat) (which : option string)
    (dtype : option DType) (reorthogonalize : option bool)
    (w : World (tf self)) :
  let msg_eigs := "Backend 'tensorflow' has not implemented eigs."%string in
  let msg_eigsh :=
    "Backend 'tensorflow' has not implemented eighs_lanczos."%string in
  eigs self A initial_state num_krylov_vecs numeig tol which maxiter dtype w
  = (inl (NotImplementedError msg_eigs), w) /\
  eigsh_lanczos self A initial_state num_krylov_vecs numeig tol delta ndiag
    reorthogonalize w
  = (inl (NotImplementedError msg_eigsh), w) /\
  contains "tensorflow" msg_eigs = true /\
  contains "eigs" msg_eigs = true /\
  contains "tensorflow" msg_eigsh = true /\
  contains "eigsh_lanczos" msg_eigsh = false.
Proof.
  destruct import_tensorflow as [m|]; [|discriminate Hinit].
  injection Hinit as <-.
  repeat split.
Qed.

Lemma eigs_eigsh_lanczos_not_implemented_witness :
  raises_NotImplementedError
    (fst (eigs Ref.backend (fun x => x) None (Some 200) (Some 1) None
            (Some "LR"%string) None None Ref.world0)) = true /\
  raises_NotImplementedError
    (fst (eigsh_lanczos Ref.backend (fun x => x) None (Some 200) (Some 1) None
            None (Some 20) (Some false) Ref.world0)) = true.
Proof.
  pose proof (eigs_eigsh_lanczos_not_implemented (Some Ref.lib) Ref.backend
                eq_refl (fun x => x) None (Some 200) (Some 1) None (Some 20)
                None None (Some "LR"%string) None (Some false) Ref.world0)
    as [He [Hl _]].
  split.
  - rewrite He. reflexivity.
  - rewrite Hl. reflexivity.
Defined.

(** * Constructors *)

(** C8: [eye], [ones] and [zeros] forward to [tf.eye], [tf.ones] and
    [tf.zeros] with dtype [float64] when the dtype argument is [None], and
    with the given dtype otherwise.  As the library builds a tensor of the
    dtype it is asked for, the constructed tensor has dtype [float64] in
    the first case and the supplied dtype in the second. *)
Theorem constructors_default_to_float64 (self : TensorFlowBackend)
    (Hlib : constructors_keep_dtype (tf self))
    (N : Z) (M : option Z) (shape : list Z) (dtype : option DType)
    (w : World (tf self)) :
  let d := match dtype with Some given => given | None => float64 end in
  eye self N dtype M w = (tf_eye (tf self) N M d, record (Call_eye N M d) w) /\
  ones self shape dtype w =
    (tf_ones (tf self) shape d, record (Call_ones shape d) w) /\
  zeros self shape dtype w =
    (tf_zeros (tf self) shape d, record (Call_zeros shape d) w) /\
  (forall t, fst (eye self N dtype M w) = inr t -> t_dtype (tf self) t = d) /\
  (forall t, fst (ones self shape dtype w) = inr t -> t_dtype (tf self) t = d) /\
  (forall t, fst (zeros self shape dtype w) = inr t -> t_dtype (tf self) t = d).
Proof.
  destruct Hlib as [He [Ho Hz]].
  destruct dtype as [given|]; simpl;
    (split; [reflexivity|]); (split; [reflexivity|]); (split; [reflexivity|]);
    (split; [apply He|]); (split; [apply Ho | apply Hz]).
Qed.

Lemma constructors_default_to_float64_witness :
  (exists t, fst (eye Ref.backend 3 None None Ref.world0) = inr t /\
             t_dtype Ref.lib t = float64) /\
  (exists t, fst (ones Ref.backend [2; 3] None Ref.world0) = inr t /\
             t_dtype Ref.lib t = float64) /\
  (exists t, fst (zeros Ref.backend [2; 3] (Some complex64) Ref.world0) = inr t /\
             t_dtype Ref.lib t = complex64).
Proof.
  pose proof (constructors_default_to_float64 Ref.backend
                Ref_constructors_keep_dtype 3 None [2; 3] None Ref.world0)
    as [_ [_ [_ [He [Ho _]]]]].
  pose proof (constructors_default_to_float64 Ref.backend
                Ref_constructors_keep_dtype 3 None [2; 3] (Some complex64)
                Ref.world0)
    as [_ [_ [_ [_ [_ Hz]]]]].
  split; [|split].
  - eexists. split; [reflexivity|]. apply He. reflexivity.
  - eexists. split; [reflexivity|]. apply Ho. reflexivity.
  - eexists. split; [reflexivity|]. apply Hz. reflexivity.
Defined.

(** C10: [eye] passes its [M] argument on as [num_columns].  With [M]
    omitted the library receives [num_columns = None] and, as [tf.eye]
    defaults the number of columns to the number of rows, the result is the
    [N]-by-[N] identity matrix; with [M] supplied the result has [N] rows
    and [M] columns. *)
Theorem eye_forwards_columns (self : TensorFlowBackend)
    (Hlib : eye_documented (tf self))
    (N : Z) (HN : 0 < N) (dtype : option DType) (w : World (tf self)) :
  let d := match dtype with Some given => given | None => float64 end in
  calls (snd (eye self N dtype None w)) = calls w ++ [Call_eye N None d] /\
  (exists t,
     fst (eye self N dtype None w) = inr t /\
     t_shape (tf self) t = [N; N] /\
     forall i j, 0 <= i < N -> 0 <= j < N ->
       entry (tf self) t [i; j] = of_int (tf self) d (if i =? j then 1 else 0)) /\
  (forall M, 0 <= M ->
     calls (snd (eye self N dtype (Some M) w)) = calls w ++ [Call_eye N (Some M) d] /\
     exists t,
       fst (eye self N dtype (Some M) w) = inr t /\
       t_shape (tf self) t = [N; M] /\
       forall i j, 0 <= i < N -> 0 <= j < M ->
         entry (tf self) t [i; j] = of_int (tf self) d (if i =? j then 1 else 0)).
Proof.
  intros d. split; [destruct dtype; reflexivity|]. split.
  - destruct (Hlib N None d) as [t [Ht [Hs He]]]; [lia | discriminate |].
    exists t. split; [|split; assumption].
    destruct dtype; exact Ht.
  - intros M HM. split; [destruct dtype; reflexivity|].
    destruct (Hlib N (Some M) d) as [t [Ht [Hs He]]];
      [lia | intros m [= <-]; exact HM |].
    exists t. split; [|split; assumption].
    destruct dtype; exact Ht.
Qed.

Lemma eye_forwards_columns_witness :
  (exists t,
     fst (eye Ref.backend 3 None None Ref.world0) = inr t /\
     t_shape Ref.lib t = [3; 3] /\
     entry Ref.lib t [1; 1] = of_int Ref.lib float64 1 /\
     entry Ref.lib t [1; 2] = of_int Ref.lib float64 0) /\
  (exists t,
     fst (eye Ref.backend 3 None (Some 5) Ref.world0) = inr t /\
     t_shape Ref.lib t = [3; 5]).
Proof.
  pose proof (eye_forwards_columns Ref.backend Ref_eye_documented 3
                ltac:(lia) None Ref.world0) as [_ [[t [Ht [Hs He]]] HM]].
  split.
  - exists t. split; [exact Ht|]. split; [exact Hs|]. split.
    + apply (He 1 1); lia.
    + apply (He 1 2); lia.
  - destruct (HM 5 ltac:(lia)) as [_ [t' [Ht' [Hs' _]]]].
    exists t'. split; assumption.
Defined.

(** * Random tensors *)

Lemma set_seeds_app {L} (a b : list (Call L)) :
  set_seeds (a ++ b) = set_seeds a ++ set_seeds b.
Proof. unfold set_seeds. apply flat_map_app. Qed.

(** [randn], once the seed statement has run. *)
Lemma randn_after_seed (self : TensorFlowBackend) (shape : list Z)
    (dtype : option DType) (seed : option Z) (w : World (tf self)) :
  randn self shape dtype seed w =
  let d := dtype_or_float64 dtype in
  let w0 := after_seed seed w in
  if is_complex d then
    (re <- call_random_normal shape (real_dtype d) ;;
     im <- call_random_normal shape (real_dtype d) ;;
     call_complex re im) w0
  else call_random_normal shape d w0.
Proof.
  unfold randn. unfold bind at 1. rewrite seed_statement. cbv zeta.
  destruct (is_complex (dtype_or_float64 dtype)); reflexivity.
Qed.

(** [random_uniform], once the seed statement has run. *)
Lemma random_uniform_after_seed (self : TensorFlowBackend) (shape : list Z)
    (boundaries : PyFloat * PyFloat) (dtype : option DType) (seed : option Z)
    (w : World (tf self)) :
  random_uniform self shape boundaries dtype seed w =
  let d := dtype_or_float64 dtype in
  let w0 := after_seed seed w in
  if is_complex d then
    (re <- call_random_uniform shape (fst boundaries) (snd boundaries)
             (real_dtype d) ;;
     im <- call_random_uniform shape (fst boundaries) (snd boundaries)
             (real_dtype d) ;;
     call_complex re im) w0
  else
    (call_set_seed 10 ;;
     a <- call_random_uniform shape (fst boundaries) (snd boundaries) d ;;
     ret a) w0.
Proof.
  unfold random_uniform. unfold bind at 1. rewrite seed_statement. cbv zeta.
  destruct (is_complex (dtype_or_float64 dtype)); reflexivity.
Qed.

(** Two draws and their combination, when both draws give a tensor. *)
Lemma two_draws_combined {L} (c : Call L)
    (f : Gen L -> (Exn + Tensor L) * Gen L) (w0 : World L)
    (re im : Tensor L) (g1 g2 : Gen L) :
  f (rng w0) = (inr re, g1) -> f g1 = (inr im, g2) ->
  (re' <- draw c f ;; im' <- draw c f ;; call_complex re' im') w0 =
  (tf_complex L re im,
   {| rng := g2; calls := calls w0 ++ [c; c; Call_complex re im] |}).
Proof.
  intros H1 H2. run_py. rewrite H1. simpl. rewrite H2. simpl.
  rewrite <- !app_assoc. reflexivity.
Qed.

(** A single draw. *)
Lemma one_draw {L} (c : Call L) (f : Gen L -> (Exn + Tensor L) * Gen L)
    (w0 : World L) :
  draw c f w0 = (fst (f (rng w0)), drawn c (snd (f (rng w0))) w0).
Proof. unfold draw, drawn. destruct (f (rng w0)); reflexivity. Qed.

(** A draw that follows [tf.random.set_seed(s)]. *)
Lemma reseed_then_draw {L} (c : Call L)
    (f : Gen L -> (Exn + Tensor L) * Gen L) (s : Z) (w0 : World L) :
  (call_set_seed s ;; a <- draw c f ;; ret a) w0 =
  (fst (f (rng (reseeded s w0))),
   drawn c (snd (f (rng (reseeded s w0)))) (reseeded s w0)).
Proof.
  run_py. simpl.
  destruct (f (tf_random_set_seed L s (rng w0))) as [[e|a] g]; reflexivity.
Qed.

Lemma is_complex_true (d : DType) :
  is_complex d = true <-> d = complex64 \/ d = complex128.
Proof.
  split.
  - destruct d; simpl; intros H; try discriminate H; auto.
  - intros [-> | ->]; reflexivity.
Qed.

(** C7: with a complex dtype, [randn] and [random_uniform] draw twice from
    the library, each time a tensor of the requested shape in the real
    dtype of the requested dtype ([float32] for [complex64], [float64] for
    [complex128]); the second draw starts from the generator state the
    first one left; the result is [tf.complex] of the first draw (real
    part) and the second (imaginary part).  With any other dtype ([None]
    stands for [float64]) there is one draw, of the requested shape and
    dtype, and it is the result. *)
Theorem complex_dtype_draws_twice (self : TensorFlowBackend)
    (shape : list Z) (boundaries : PyFloat * PyFloat) (dtype : option DType)
    (seed : option Z) (w : World (tf self)) :
  let d := match dtype with Some given => given | None => float64 end in
  let w0 := after_seed seed w in
  let normal := tf_random_normal (tf self) shape in
  let uniform :=
    tf_random_uniform (tf self) shape (fst boundaries) (snd boundaries) in
  let c_normal := Call_random_normal shape in
  let c_uniform :=
    Call_random_uniform shape (fst boundaries) (snd boundaries) in
  (d = complex64 \/ d = complex128 ->
   (real_dtype d = float32 /\ d = complex64 \/
    real_dtype d = float64 /\ d = complex128) /\
   (forall re im g1 g2,
      normal (real_dtype d) (rng w0) = (inr re, g1) ->
      normal (real_dtype d) g1 = (inr im, g2) ->
      randn self shape dtype seed w =
      (tf_complex (tf self) re im,
       {| rng := g2;
          calls := calls w0 ++ [c_normal (real_dtype d); c_normal (real_dtype d);
                                Call_complex re im] |})) /\
   (forall re im g1 g2,
      uniform (real_dtype d) (rng w0) = (inr re, g1) ->
      uniform (real_dtype d) g1 = (inr im, g2) ->
      random_uniform self shape boundaries dtype seed w =
      (tf_complex (tf self) re im,
       {| rng := g2;
          calls := calls w0 ++ [c_uniform (real_dtype d); c_uniform (real_dtype d);
                                Call_complex re im] |}))) /\
  (d <> complex64 -> d <> complex128 ->
   randn self shape dtype seed w =
   (fst (normal d (rng w0)), drawn (c_normal d) (snd (normal d (rng w0))) w0) /\
   random_uniform self shape boundaries dtype seed w =
   let w1 := reseeded 10 w0 in
   (fst (uniform d (rng w1)), drawn (c_uniform d) (snd (uniform d (rng w1))) w1)).
Proof.
  intros d w0 normal uniform c_normal c_uniform.
  assert (Hd : dtype_or_float64 dtype = d) by reflexivity.
  split.
  - intros Hc. pose proof (proj2 (is_complex_true d) Hc) as Hb.
    split; [destruct Hc as [-> | ->]; simpl; auto|].
    split; intros re im g1 g2 H1 H2.
    + rewrite randn_after_seed. cbv zeta. rewrite Hd, Hb.
      apply (two_draws_combined (c_normal (real_dtype d))
               (normal (real_dtype d)) w0 re im g1 g2 H1 H2).
    + rewrite random_uniform_after_seed. cbv zeta. rewrite Hd, Hb.
      apply (two_draws_combined (c_uniform (real_dtype d))
               (uniform (real_dtype d)) w0 re im g1 g2 H1 H2).
  - intros H64 H128.
    assert (Hb : is_complex d = false).
    { destruct (is_complex d) eqn:E; [|reflexivity].
      apply is_complex_true in E. destruct E; contradiction. }
    split.
    + rewrite randn_after_seed. cbv zeta. rewrite Hd, Hb.
      apply (one_draw (c_normal d) (normal d) w0).
    + rewrite random_uniform_after_seed. cbv zeta. rewrite Hd, Hb.
      apply (reseed_then_draw (c_uniform d) (uniform d) 10 w0).
Qed.

Lemma complex_dtype_draws_twice_witness :
  (exists t,
     fst (randn Ref.backend [2; 3] (Some complex64) None Ref.world0) = inr t /\
     t_shape Ref.lib t = [2; 3] /\ t_dtype Ref.lib t = complex64 /\
     entry Ref.lib t [1; 2] =
     Ref.ComplexOf (Ref.Sample Ref.Normal float32 2019 0 5)
                   (Ref.Sample Ref.Normal float32 2019 1 5)) /\
  (exists t,
     fst (random_uniform Ref.backend [2; 3] Sample.unit_interval
            (Some complex128) None Ref.world0) = inr t /\
     t_shape Ref.lib t = [2; 3] /\ t_dtype Ref.lib t = complex128) /\
  (exists t,
     fst (randn Ref.backend [2; 3] None None Ref.world0) = inr t /\
     t_shape Ref.lib t = [2; 3] /\ t_dtype Ref.lib t = float64 /\
     entry Ref.lib t [1; 2] = Ref.Sample Ref.Normal float64 2019 0 5).
Proof.
  pose proof (complex_dtype_draws_twice Ref.backend [2; 3] Sample.unit_interval
                (Some complex64) None Ref.world0) as [H64 _].
  destruct (H64 (or_introl eq_refl)) as [_ [Hn _]].
  pose proof (complex_dtype_draws_twice Ref.backend [2; 3] Sample.unit_interval
                (Some complex128) None Ref.world0) as [H128 _].
  destruct (H128 (or_intror eq_refl)) as [_ [_ Hu]].
  pose proof (complex_dtype_draws_twice Ref.backend [2; 3] Sample.unit_interval
                None None Ref.world0) as [_ Hreal].
  destruct Hreal as [Hr _]; [discriminate | discriminate |].
  split; [|split].
  - erewrite Hn; [|reflexivity|reflexivity].
    eexists. split; [reflexivity|]. repeat split.
  - erewrite Hu; [|reflexivity|reflexivity].
    eexists. split; [reflexivity|]. repeat split.
  - rewrite Hr.
    eexists. split; [reflexivity|]. repeat split.
Defined.

(** The seeds with which a call of [randn] reconfigures the generator. *)
Lemma randn_set_seeds (self : TensorFlowBackend) (shape : list Z)
    (dtype : option DType) (seed : option Z) (w : World (tf self)) :
  set_seeds (calls (snd (randn self shape dtype seed w))) =
  set_seeds (calls (after_seed seed w)).
Proof.
  rewrite randn_after_seed. cbv zeta.
  destruct (is_complex (dtype_or_float64 dtype)); run_py.
  - destruct (tf_random_normal _ _ _ _) as [[e|re] g1]; simpl.
    + rewrite set_seeds_app, app_nil_r. reflexivity.
    + destruct (tf_random_normal _ _ _ _) as [[e|im] g2]; simpl;
        rewrite !set_seeds_app, !app_nil_r; reflexivity.
  - destruct (tf_random_normal _ _ _ _) as [r g1]; simpl.
    rewrite set_seeds_app, app_nil_r. reflexivity.
Qed.

(** The same for [random_uniform]: the branch for the other dtypes adds a
    seed of its own. *)
Lemma random_uniform_set_seeds (self : TensorFlowBackend) (shape : list Z)
    (boundaries : PyFloat * PyFloat) (dtype : option DType) (seed : option Z)
    (w : World (tf self)) :
  set_seeds (calls (snd (random_uniform self shape boundaries dtype seed w))) =
  set_seeds (calls (after_seed seed w))
  ++ (if is_complex (dtype_or_float64 dtype) then [] else [10]).
Proof.
  rewrite random_uniform_after_seed. cbv zeta.
  destruct (is_complex (dtype_or_float64 dtype)); run_py.
  - destruct (tf_random_uniform _ _ _ _ _ _) as [[e|re] g1]; simpl.
    + rewrite set_seeds_app, !app_nil_r. reflexivity.
    + destruct (tf_random_uniform _ _ _ _ _ _) as [[e|im] g2]; simpl;
        rewrite !set_seeds_app, !app_nil_r; reflexivity.
  - simpl. destruct (tf_random_uniform _ _ _ _ _ _) as [[e|a] g1]; simpl;
      rewrite !set_seeds_app, app_nil_r; reflexivity.
Qed.

(** C9: the seed is tested for truth, and [0] is false: [randn] and
    [random_uniform] with [seed = 0] do in every world exactly what they do
    with no seed (same outcome, same generator state, same library calls).
    The generator is not reconfigured from the seed: [randn] issues no
    [tf.random.set_seed] call, and the only one [random_uniform] issues is
    the [set_seed(10)] of its branch for non-complex dtypes, which it
    issues without a seed as well. *)
Theorem seed_zero_is_no_seed (self : TensorFlowBackend) (shape : list Z)
    (boundaries : PyFloat * PyFloat) (dtype : option DType)
    (w : World (tf self)) :
  let d := match dtype with Some given => given | None => float64 end in
  truthy (Some 0) = false /\
  randn self shape dtype (Some 0) w = randn self shape dtype None w /\
  random_uniform self shape boundaries dtype (Some 0) w =
  random_uniform self shape boundaries dtype None w /\
  set_seeds (calls (snd (randn self shape dtype (Some 0) w))) =
  set_seeds (calls w) /\
  set_seeds (calls (snd (random_uniform self shape boundaries dtype (Some 0) w))) =
  set_seeds (calls w) ++ (if is_complex d then [] else [10]).
Proof.
  intros d.
  split; [reflexivity|]. split; [reflexivity|]. split; [reflexivity|]. split.
  - apply (randn_set_seeds self shape dtype (Some 0) w).
  - apply (random_uniform_set_seeds self shape boundaries dtype (Some 0) w).
Qed.

(** C2: a seed other than [0] reconfigures the generator before anything
    is drawn: the call continues as a call without seed in the reseeded
    world.  [randn], and [random_uniform] with a complex dtype, then draw
    from that state.  With any other dtype [random_uniform] calls
    [tf.random.set_seed(10)] before its draw; as setting a seed replaces
    the state of the generator, what it returns is the draw for seed 10,
    the same for every seed the caller passes and in every world. *)
Theorem random_uniform_real_ignores_seed (self : TensorFlowBackend)
    (Hlib : set_seed_resets (tf self))
    (shape : list Z) (boundaries : PyFloat * PyFloat) (dtype : option DType) :
  let d := match dtype with Some given => given | None => float64 end in
  (forall s w, s <> 0 ->
     randn self shape dtype (Some s) w =
     randn self shape dtype None (reseeded s w)) /\
  (forall s w, s <> 0 ->
     random_uniform self shape boundaries dtype (Some s) w =
     random_uniform self shape boundaries dtype None (reseeded s w)) /\
  (d <> complex64 -> d <> complex128 ->
   forall seed seed' w w',
     fst (random_uniform self shape boundaries dtype seed w) =
     fst (tf_random_uniform (tf self) shape (fst boundaries) (snd boundaries) d
            (tf_random_set_seed (tf self) 10 (rng w))) /\
     fst (random_uniform self shape boundaries dtype seed w) =
     fst (random_uniform self shape boundaries dtype seed' w')).
Proof.
  intros d.
  assert (Hseed : forall s (w : World (tf self)), s <> 0 ->
            after_seed (Some s) w = after_seed None (reseeded s w)).
  { intros s w Hs. simpl. apply Z.eqb_neq in Hs. rewrite Hs. reflexivity. }
  split; [|split].
  - intros s w Hs. rewrite !randn_after_seed, (Hseed s w Hs). reflexivity.
  - intros s w Hs.
    rewrite !random_uniform_after_seed, (Hseed s w Hs). reflexivity.
  - intros H64 H128.
    assert (Hb : is_complex (dtype_or_float64 dtype) = false).
    { destruct (is_complex _) eqn:E; [|reflexivity].
      apply is_complex_true in E. destruct E; contradiction. }
    assert (Hrun : forall seed w,
              fst (random_uniform self shape boundaries dtype seed w) =
              fst (tf_random_uniform (tf self) shape (fst boundaries)
                     (snd boundaries) d
                     (tf_random_set_seed (tf self) 10 (rng w)))).
    { intros seed w. rewrite random_uniform_after_seed. cbv zeta. rewrite Hb.
      unfold call_random_uniform. rewrite reseed_then_draw. simpl.
      rewrite (Hlib 10 (rng (after_seed seed w)) (rng w)). reflexivity. }
    intros seed seed' w w'. split; [apply Hrun|].
    rewrite !Hrun, (Hlib 10 (rng w) (rng w')). reflexivity.
Qed.

Lemma random_uniform_real_ignores_seed_witness :
  (* float64: the caller's seeds 5 and 7 give the draw of seed 10 *)
  fst (random_uniform Ref.backend [2] Sample.unit_interval None (Some 5) Ref.world0)
  = fst (random_uniform Ref.backend [2] Sample.unit_interval None (Some 7) Ref.world0)
  /\
  (exists t,
     fst (random_uniform Ref.backend [2] Sample.unit_interval None (Some 5)
            Ref.world0) = inr t /\
     entry Ref.lib t [1] =
     Ref.Sample (Ref.Uniform 0%float 1%float) float64 10 0 1) /\
  (* randn: seed 5 is the seed of the draw *)
  (exists t,
     fst (randn Ref.backend [2] None (Some 5) Ref.world0) = inr t /\
     entry Ref.lib t [1] = Ref.Sample Ref.Normal float64 5 0 1).
Proof.
  pose proof (random_uniform_real_ignores_seed Ref.backend Ref_set_seed_resets
                [2] Sample.unit_interval None) as [Hn [_ Hu]].
  specialize (Hu ltac:(discriminate) ltac:(discriminate)).
  split; [|split].
  - apply (Hu (Some 5) (Some 7) Ref.world0 Ref.world0).
  - rewrite (proj1 (Hu (Some 5) (Some 7) Ref.world0 Ref.world0)).
    eexists. split; reflexivity.
  - rewrite (Hn 5 Ref.world0) by lia.
    eexists. split; reflexivity.
Defined.

(** * Broadcast multiplication *)

Lemma broadcast_dims_app (a a' b b' x y : list Z) :
  broadcast_dims a a' = Some x -> broadcast_dims b b' = Some y ->
  broadcast_dims (a ++ b) (a' ++ b') = Some (x ++ y).
Proof.
  revert a' x. induction a as [|d a IH]; intros [|d' a'] x Ha Hb; simpl in *;
    try discriminate.
  - injection Ha as <-. exact Hb.
  - destruct (broadcast_dim d d') as [e|]; [|discriminate].
    destruct (broadcast_dims a a') as [r|] eqn:Hr; [|discriminate].
    injection Ha as <-. rewrite (IH a' r Hr Hb). reflexivity.
Qed.

(** A vector against the last axis. *)
Lemma broadcast_shape_last_axis (lead : list Z) (n : Z) :
  broadcast_shape (lead ++ [n]) [n] = Some (lead ++ [n]).
Proof.
  unfold broadcast_shape, pad_left. rewrite length_app. simpl.
  replace (Nat.max (List.length lead + 1) 1) with (List.length lead + 1)%nat
    by lia.
  rewrite Nat.sub_diag. simpl.
  replace (List.length lead + 1 - 1)%nat with (List.length lead) by lia.
  apply broadcast_dims_app.
  - apply broadcast_dims_ones_r.
  - simpl. rewrite broadcast_dim_same. reflexivity.
Qed.

(** A tensor against a vector reshaped to [n, 1, ..., 1]. *)
Lemma broadcast_shape_first_axis (rest : list Z) (n : Z) :
  broadcast_shape (n :: rest) (n :: repeat 1 (List.length rest)) =
  Some (n :: rest).
Proof.
  unfold broadcast_shape, pad_left. simpl. rewrite repeat_length.
  rewrite Nat.max_id, Nat.sub_diag. simpl.
  rewrite broadcast_dim_same, broadcast_dims_ones_r. reflexivity.
Qed.

Lemma clamp_ones (js : list Z) :
  clamp (repeat 1 (List.length js)) js = repeat 0 (List.length js).
Proof.
  induction js as [|j js IH]; simpl; [reflexivity | rewrite IH; reflexivity].
Qed.

Lemma ravel_zeros (s : list Z) (k : nat) : ravel s (repeat 0 k) = 0.
Proof.
  revert k. induction s as [|d s IH]; intros [|k]; simpl; try reflexivity.
  apply IH.
Qed.

Lemma in_range_ones (k : nat) : in_range (repeat 1 k) (repeat 0 k).
Proof.
  induction k as [|k IH]; simpl; constructor; [lia | exact IH].
Qed.

(** The last component of an index in range. *)
Lemma in_range_last (lead idx : list Z) (n j : Z) :
  in_range (lead ++ [n]) (idx ++ [j]) ->
  List.length idx = List.length lead /\ 0 <= j < n.
Proof.
  intros H. pose proof (in_range_length _ _ H) as Hlen.
  rewrite !length_app in Hlen. simpl in Hlen.
  split; [lia|].
  apply Forall2_app_inv_l in H. destruct H as [i1 [i2 [_ [H2 Heq]]]].
  inversion H2 as [|? j' ? r Hj Hr]; subst. inversion Hr; subst.
  apply app_inj_tail in Heq. destruct Heq as [_ ->]. exact Hj.
Qed.

Lemma bidx_last_axis (lead idx : list Z) (n j : Z) :
  in_range (lead ++ [n]) (idx ++ [j]) -> bidx [n] (idx ++ [j]) = [j].
Proof.
  intros H. destruct (in_range_last _ _ _ _ H) as [Hlen Hj].
  unfold bidx. rewrite length_app. simpl.
  replace (List.length idx + 1 - 1)%nat with (List.length idx) by lia.
  rewrite skipn_app, skipn_all, Nat.sub_diag. simpl.
  destruct (Z.eqb_spec n 1); [f_equal; lia | reflexivity].
Qed.

Lemma bidx_first_axis (rest js : list Z) (n i : Z) :
  in_range (n :: rest) (i :: js) ->
  bidx (n :: repeat 1 (List.length rest)) (i :: js) =
  i :: repeat 0 (List.length rest).
Proof.
  intros H. pose proof (in_range_length _ _ H) as Hlen. simpl in Hlen.
  injection Hlen as Hlen.
  inversion H as [|? ? ? ? Hi _]; subst.
  unfold bidx. simpl. rewrite repeat_length, <- Hlen, Nat.sub_diag. simpl.
  rewrite clamp_ones.
  destruct (Z.eqb_spec n 1); [f_equal; lia | reflexivity].
Qed.

(** [broadcast_right_multiplication] with a vector of length [n] and a
    tensor whose last axis has length [n]. *)
Lemma broadcast_right_entries (self : TensorFlowBackend)
    (Hmul : mul_broadcasts (tf self))
    (tensor1 tensor2 : Tensor (tf self)) (w : World (tf self))
    (n : Z) (lead : list Z) :
  t_shape (tf self) tensor2 = [n] ->
  t_shape (tf self) tensor1 = lead ++ [n] ->
  t_dtype (tf self) tensor1 = t_dtype (tf self) tensor2 ->
  exists c,
    fst (broadcast_right_multiplication self tensor1 tensor2 w) = inr c /\
    t_shape (tf self) c = lead ++ [n] /\
    forall idx j, in_range (lead ++ [n]) (idx ++ [j]) ->
      entry (tf self) c (idx ++ [j]) =
      smul (tf self) (entry (tf self) tensor1 (idx ++ [j]))
                     (entry (tf self) tensor2 [j]).
Proof.
  intros H2 H1 Hd.
  destruct (Hmul tensor1 tensor2 (lead ++ [n]) Hd) as [c [Hc [Hs He]]].
  { rewrite H1, H2. apply broadcast_shape_last_axis. }
  exists c. split; [|split; [exact Hs|]].
  - unfold broadcast_right_multiplication. rewrite H2. simpl. exact Hc.
  - intros idx j Hin. rewrite (He _ Hin), H1, H2.
    rewrite (bidx_same_rank _ _ Hin), (bidx_last_axis _ _ _ _ Hin).
    reflexivity.
Qed.

(** [broadcast_left_multiplication] with a vector of length [n] and a
    tensor whose first axis has length [n]. *)
Lemma broadcast_left_entries (self : TensorFlowBackend)
    (Hshape : shape_is_static (tf self)) (Hconcat : concat_appends (tf self))
    (Hreshape : reshape_row_major (tf self)) (Hmul : mul_broadcasts (tf self))
    (tensor1 tensor2 : Tensor (tf self)) (w : World (tf self))
    (n : Z) (rest : list Z) :
  t_shape (tf self) tensor1 = [n] -> 0 <= n ->
  t_shape (tf self) tensor2 = n :: rest ->
  t_dtype (tf self) tensor1 = t_dtype (tf self) tensor2 ->
  let s := n :: repeat 1 (List.length rest) in
  exists r c,
    tf_reshape (tf self) tensor1 s = inr r /\
    t_shape (tf self) r = s /\
    broadcast_left_multiplication self tensor1 tensor2 w =
    (inr c,
     {| rng := rng w;
        calls := calls w ++ [Call_shape tensor1;
                             Call_concat [[n]; repeat 1 (List.length rest)] (-1);
                             Call_reshape tensor1 s;
                             Call_mul tensor2 r] |}) /\
    t_shape (tf self) c = n :: rest /\
    forall i js, in_range (n :: rest) (i :: js) ->
      entry (tf self) c (i :: js) =
      smul (tf self) (entry (tf self) tensor2 (i :: js))
                     (entry (tf self) tensor1 [i]).
Proof.
  intros H1 Hn H2 Hd s.
  destruct (Hreshape tensor1 s) as [r [Hr [Hrs [Hrd Hre]]]].
  { constructor; [exact Hn|]. apply Forall_forall.
    intros x Hx. apply repeat_spec in Hx. lia. }
  { rewrite H1. unfold s. rewrite !numel_cons, numel_repeat_1. reflexivity. }
  destruct (Hmul tensor2 r (n :: rest)) as [c [Hc [Hcs Hce]]].
  { rewrite Hrd. symmetry. exact Hd. }
  { rewrite H2, Hrs. apply broadcast_shape_first_axis. }
  exists r, c. split; [exact Hr|]. split; [exact Hrs|]. split; [|split].
  - assert (Hk : Z.to_nat (Z.of_nat (List.length (n :: rest)) - 1)
                 = List.length rest) by (simpl List.length; lia).
    unfold broadcast_left_multiplication. rewrite H1, H2, Hk.
    change (negb (List.length [n] =? 1)%nat) with false. cbv iota.
    run_py. rewrite Hshape, H1, Hconcat.
    change ([n] ++ repeat 1 (List.length rest)) with s.
    rewrite Hr, Hc. cbn [rng calls].
    rewrite <- !app_assoc. reflexivity.
  - exact Hcs.
  - intros i js Hin. rewrite (Hce _ Hin), H2, Hrs.
    rewrite (bidx_same_rank _ _ Hin). unfold s.
    rewrite (bidx_first_axis _ _ _ _ Hin). f_equal.
    inversion Hin as [|? ? ? ? Hi _]; subst.
    apply Hre.
    + rewrite H1. constructor; [exact Hi | constructor].
    + constructor; [exact Hi | apply in_range_ones].
    + rewrite H1. simpl. rewrite ravel_zeros, numel_repeat_1. reflexivity.
Qed.

(** C6: [broadcast_left_multiplication] raises a [ValueError] unless
    [tensor1] has one axis, and [broadcast_right_multiplication] unless
    [tensor2] has one axis; no product is computed then.  With a vector as
    second operand, [broadcast_right_multiplication] is the library's
    [tensor1 * tensor2], which multiplies every entry of [tensor1] by the
    entry of the vector at its last index.  With a vector of length [n] as
    first operand, [broadcast_left_multiplication] reshapes it to
    [n, 1, ..., 1] (one 1 for each further axis of [tensor2]) and returns
    [tensor2 * reshaped], which multiplies every entry of [tensor2] by the
    entry of the vector at its first index. *)
Theorem broadcast_multiplication_needs_vector (self : TensorFlowBackend)
    (tensor1 tensor2 : Tensor (tf self)) (w : World (tf self)) :
  (List.length (t_shape (tf self) tensor1) <> 1%nat ->
   broadcast_left_multiplication self tensor1 tensor2 w =
   (inl (ValueError
      ("only order-1 tensors are allowed for `tensor1`, found `tensor1.shape = "
       ++ str_Tensor (tf self) (tf_shape (tf self) tensor1) ++ "`")%string),
    record (Call_shape tensor1) w)) /\
  (List.length (t_shape (tf self) tensor2) <> 1%nat ->
   broadcast_right_multiplication self tensor1 tensor2 w =
   (inl (ValueError
      ("only order-1 tensors are allowed for `tensor2`, found `tensor2.shape = "
       ++ str_Tensor (tf self) (tf_shape (tf self) tensor2) ++ "`")%string),
    record (Call_shape tensor2) w)) /\
  (List.length (t_shape (tf self) tensor2) = 1%nat ->
   broadcast_right_multiplication self tensor1 tensor2 w =
   (tensor_mul (tf self) tensor1 tensor2, record (Call_mul tensor1 tensor2) w)) /\
  (mul_broadcasts (tf self) ->
   forall n lead,
     t_shape (tf self) tensor2 = [n] ->
     t_shape (tf self) tensor1 = lead ++ [n] ->
     t_dtype (tf self) tensor1 = t_dtype (tf self) tensor2 ->
     exists c,
       fst (broadcast_right_multiplication self tensor1 tensor2 w) = inr c /\
       t_shape (tf self) c = lead ++ [n] /\
       forall idx j, in_range (lead ++ [n]) (idx ++ [j]) ->
         entry (tf self) c (idx ++ [j]) =
         smul (tf self) (entry (tf self) tensor1 (idx ++ [j]))
                        (entry (tf self) tensor2 [j])) /\
  (shape_is_static (tf self) -> concat_appends (tf self) ->
   reshape_row_major (tf self) -> mul_broadcasts (tf self) ->
   forall n rest,
     t_shape (tf self) tensor1 = [n] -> 0 <= n ->
     t_shape (tf self) tensor2 = n :: rest ->
     t_dtype (tf self) tensor1 = t_dtype (tf self) tensor2 ->
     let s := n :: repeat 1 (List.length rest) in
     exists r c,
       tf_reshape (tf self) tensor1 s = inr r /\
       t_shape (tf self) r = s /\
       broadcast_left_multiplication self tensor1 tensor2 w =
       (inr c,
        {| rng := rng w;
           calls := calls w ++ [Call_shape tensor1;
                                Call_concat [[n]; repeat 1 (List.length rest)] (-1);
                                Call_reshape tensor1 s;
                                Call_mul tensor2 r] |}) /\
       t_shape (tf self) c = n :: rest /\
       forall i js, in_range (n :: rest) (i :: js) ->
         entry (tf self) c (i :: js) =
         smul (tf self) (entry (tf self) tensor2 (i :: js))
                        (entry (tf self) tensor1 [i])).
Proof.
  split; [|split; [|split; [|split]]].
  - intros H. unfold broadcast_left_multiplication.
    apply Nat.eqb_neq in H. rewrite H. reflexivity.
  - intros H. unfold broadcast_right_multiplication.
    apply Nat.eqb_neq in H. rewrite H. reflexivity.
  - intros H. unfold broadcast_right_multiplication.
    apply Nat.eqb_eq in H. rewrite H. reflexivity.
  - intros Hmul n lead. apply broadcast_right_entries. exact Hmul.
  - intros Hshape Hconcat Hreshape Hmul n rest.
    apply broadcast_left_entries; assumption.
Qed.

Lemma broadcast_multiplication_needs_vector_witness :
  raises_ValueError
    (fst (broadcast_left_multiplication Ref.backend Sample.m23 Sample.m23
            Ref.world0)) = true /\
  raises_ValueError
    (fst (broadcast_right_multiplication Ref.backend Sample.m23 Sample.m23
            Ref.world0)) = true /\
  (exists c,
     fst (broadcast_right_multiplication Ref.backend Sample.m23 Sample.v3
            Ref.world0) = inr c /\
     t_shape Ref.lib c = [2; 3] /\
     entry Ref.lib c [1; 2] =
     Ref.Product (Ref.Lit float64 5) (Ref.Lit float64 12)) /\
  (exists c,
     fst (broadcast_left_multiplication Ref.backend Sample.v2 Sample.m23
            Ref.world0) = inr c /\
     t_shape Ref.lib c = [2; 3] /\
     entry Ref.lib c [1; 2] =
     Ref.Product (Ref.Lit float64 5) (Ref.Lit float64 11)).
Proof.
  pose proof (broadcast_multiplication_needs_vector Ref.backend Sample.m23
                Sample.m23 Ref.world0) as [Hl [Hr _]].
  pose proof (broadcast_multiplication_needs_vector Ref.backend Sample.m23
                Sample.v3 Ref.world0) as [_ [_ [_ [Hright _]]]].
  pose proof (broadcast_multiplication_needs_vector Ref.backend Sample.v2
                Sample.m23 Ref.world0) as [_ [_ [_ [_ Hleft]]]].
  split; [|split; [|split]].
  - rewrite Hl by (simpl; lia). reflexivity.
  - rewrite Hr by (simpl; lia). reflexivity.
  - destruct (Hright Ref_mul_broadcasts 3 [2] eq_refl eq_refl eq_refl)
      as [c [Hc [Hs He]]].
    exists c. split; [exact Hc|]. split; [exact Hs|].
    apply (He [1] 2). repeat constructor; lia.
  - destruct (Hleft Ref_shape_is_static Ref_concat_appends
                Ref_reshape_row_major Ref_mul_broadcasts 2 [3]
                eq_refl ltac:(lia) eq_refl eq_refl)
      as [r [c [_ [_ [Hc [Hs He]]]]]].
    exists c. split; [rewrite Hc; reflexivity|]. split; [exact Hs|].
    apply (He 1 [2]). repeat constructor; lia.
Defined.

(** The reference library run directly gives the same products. *)
Example broadcast_left_on_reference :
  match fst (broadcast_left_multiplication Ref.backend Sample.v2 Sample.m23
               Ref.world0) with
  | inr c =>
      Ref.r_shape c = [2; 3] /\
      map (Ref.r_at c) [[0; 0]; [0; 2]; [1; 0]; [1; 2]] =
      [Ref.Product (Ref.Lit float64 0) (Ref.Lit float64 10);
       Ref.Product (Ref.Lit float64 2) (Ref.Lit float64 10);
       Ref.Product (Ref.Lit float64 3) (Ref.Lit float64 11);
       Ref.Product (Ref.Lit float64 5) (Ref.Lit float64 11)]
  | inl _ => False
  end.
Proof. simpl. split; reflexivity. Qed.

Example broadcast_right_on_reference :
  match fst (broadcast_right_multiplication Ref.backend Sample.m23 Sample.v3
               Ref.world0) with
  | inr c =>
      Ref.r_shape c = [2; 3] /\
      map (Ref.r_at c) [[0; 0]; [0; 2]; [1; 0]; [1; 2]] =
      [Ref.Product (Ref.Lit float64 0) (Ref.Lit float64 10);
       Ref.Product (Ref.Lit float64 2) (Ref.Lit float64 12);
       Ref.Product (Ref.Lit float64 3) (Ref.Lit float64 10);
       Ref.Product (Ref.Lit float64 5) (Ref.Lit float64 12)]
  | inl _ => False
  end.
Proof. simpl. split; reflexivity. Qed.

(** * Further properties of the adapter *)

Lemma broadcast_dims_same (s : list Z) : broadcast_dims s s = Some s.
Proof.
  induction s as [|d s IH]; simpl; [reflexivity|].
  rewrite broadcast_dim_same, IH. reflexivity.
Qed.

Lemma broadcast_shape_same (s : list Z) : broadcast_shape s s = Some s.
Proof.
  unfold broadcast_shape, pad_left.
  rewrite Nat.max_id, Nat.sub_diag. apply broadcast_dims_same.
Qed.

Lemma floating_real_dtype (d : DType) :
  d = complex64 \/ d = complex128 -> floating (real_dtype d) = true.
Proof. intros [-> | ->]; reflexivity. Qed.

Lemma Ref_draws_documented : draws_documented Ref.lib.
Proof.
  intros shape d g Hs Hd. simpl.
  unfold Ref.random_normal, Ref.random_uniform, Ref.sample.
  rewrite (all_nonneg_Forall shape Hs).
  assert (Hf : Ref.is_float d = true) by (destruct d; try discriminate Hd; reflexivity).
  rewrite Hf. simpl. split.
  - eexists. eexists. split; [reflexivity|]. split; reflexivity.
  - intros minval maxval. eexists. eexists.
    split; [reflexivity|]. split; reflexivity.
Qed.

Lemma Ref_complex_documented : complex_documented Ref.lib.
Proof.
  intros re im d Hd Hs Hre Him. simpl in *. unfold Ref.complex.
  rewrite Hre, Him, Hs, broadcast_shape_same.
  destruct Hd as [-> | ->]; simpl;
    eexists; (split; [reflexivity|]); split; reflexivity.
Qed.

Lemma raise_leaves_generator_alone {L A} (e : Exn) :
  leaves_generator_alone (@raise L A e).
Proof. intros w. split; reflexivity. Qed.

Lemma call_leaves_generator_alone {L A} (c : Call L) (r : Exn + A) :
  touches_generator c = false -> leaves_generator_alone (call c r).
Proof.
  intros Hc w. split; [reflexivity|].
  unfold call, record. simpl. rewrite filter_app. simpl. rewrite Hc.
  apply app_nil_r.
Qed.

Lemma bind_leaves_generator_alone {L A B} (m : Py L A) (k : A -> Py L B) :
  leaves_generator_alone m -> (forall a, leaves_generator_alone (k a)) ->
  leaves_generator_alone (bind m k).
Proof.
  intros Hm Hk w. unfold bind. destruct (Hm w) as [Hr Hc].
  destruct (m w) as [[e|a] u]; simpl in *.
  - split; assumption.
  - destruct (Hk a u) as [Hr' Hc']. split; congruence.
Qed.

(** X1: only [randn] and [random_uniform] touch the global generator: every
    other method issues no call of [tf.random.set_seed],
    [tf.random.normal] or [tf.random.uniform] and leaves the generator in
    the state it found it in, whether it returns or raises. *)
Theorem other_methods_keep_generator (self : TensorFlowBackend)
    (t t' : Tensor (tf self)) (l l' : list Z) (ls : list (list Z)) (z : Z)
    (oz oz' oz'' : option Z) (dtype : option DType)
    (A : Tensor (tf self) -> Tensor (tf self)) (ot : option (Tensor (tf self)))
    (f f' : option PyFloat) (which : option string) (b : option bool) :
  leaves_generator_alone (reshape self t l) /\
  leaves_generator_alone (slice self t l l') /\
  leaves_generator_alone (shape_concat self ls z) /\
  leaves_generator_alone (shape_tensor self t) /\
  leaves_generator_alone (eye self z dtype oz) /\
  leaves_generator_alone (ones self l dtype) /\
  leaves_generator_alone (zeros self l dtype) /\
  leaves_generator_alone (eigs self A ot oz oz' f which oz'' dtype) /\
  leaves_generator_alone (eigsh_lanczos self A ot oz oz' f f' oz'' b) /\
  leaves_generator_alone (multiply self t t') /\
  leaves_generator_alone (inv self t) /\
  leaves_generator_alone (broadcast_right_multiplication self t t') /\
  leaves_generator_alone (broadcast_left_multiplication self t t') /\
  leaves_generator_alone (expm self t).
Proof.
  assert (Hshape : forall u : Tensor (tf self),
            leaves_generator_alone (call_shape u))
    by (intros u; apply call_leaves_generator_alone; reflexivity).
  repeat apply conj;
    try (apply call_leaves_generator_alone; reflexivity);
    try apply raise_leaves_generator_alone.
  - unfold slice. destruct (negb _);
      [apply raise_leaves_generator_alone
      | apply call_leaves_generator_alone; reflexivity].
  - unfold inv. destruct (_ <? _)%nat.
    + apply bind_leaves_generator_alone; [apply Hshape|].
      intros s. apply raise_leaves_generator_alone.
    + apply call_leaves_generator_alone; reflexivity.
  - unfold broadcast_right_multiplication. destruct (negb _).
    + apply bind_leaves_generator_alone; [apply Hshape|].
      intros s. apply raise_leaves_generator_alone.
    + apply call_leaves_generator_alone; reflexivity.
  - unfold broadcast_left_multiplication. destruct (negb _).
    + apply bind_leaves_generator_alone; [apply Hshape|].
      intros s. apply raise_leaves_generator_alone.
    + apply bind_leaves_generator_alone; [apply Hshape|]. intros s1.
      apply bind_leaves_generator_alone;
        [apply call_leaves_generator_alone; reflexivity|]. intros s.
      apply bind_leaves_generator_alone;
        [apply call_leaves_generator_alone; reflexivity|]. intros r.
      apply call_leaves_generator_alone; reflexivity.
  - unfold expm. destruct (negb _); [apply raise_leaves_generator_alone|].
    cbv zeta. destruct (negb _);
      [apply raise_leaves_generator_alone
      | apply call_leaves_generator_alone; reflexivity].
Qed.

(** X2: what [slice], [inv] and [expm] return is what the library returned, and
    a returned tensor means that the check of the method passed: lengths
    are equal for [slice], the input of [inv] has at most two axes, the
    input of [expm] is a square matrix.  An exception of [inv] is either
    its own [ValueError], for more than two axes, or the exception the
    library raised. *)
Theorem slice_inv_expm_outcomes (self : TensorFlowBackend)
    (tensor matrix : Tensor (tf self)) (start_indices slice_sizes : list Z)
    (w : World (tf self)) :
  (forall t, fst (slice self tensor start_indices slice_sizes w) = inr t ->
     List.length start_indices = List.length slice_sizes /\
     tf_slice (tf self) tensor start_indices slice_sizes = inr t) /\
  (forall t, fst (inv self matrix w) = inr t ->
     (List.length (t_shape (tf self) matrix) <= 2)%nat /\
     tf_linalg_inv (tf self) matrix = inr t) /\
  (forall e, fst (inv self matrix w) = inl e ->
     (2 < List.length (t_shape (tf self) matrix))%nat /\
     raises_ValueError (@inl Exn (Tensor (tf self)) e) = true \/
     (List.length (t_shape (tf self) matrix) <= 2)%nat /\
     tf_linalg_inv (tf self) matrix = inl e) /\
  (forall t, fst (expm self matrix w) = inr t ->
     (exists n, t_shape (tf self) matrix = [n; n]) /\
     tf_linalg_expm (tf self) matrix = inr t).
Proof.
  split; [|split; [|split]].
  - intros t. unfold slice.
    destruct (Nat.eqb_spec (List.length start_indices) (List.length slice_sizes))
      as [E|E]; simpl; [auto | discriminate].
  - intros t. unfold inv.
    destruct (Nat.ltb_spec 2 (List.length (t_shape (tf self) matrix)));
      simpl; [discriminate | auto].
  - intros e. unfold inv.
    destruct (Nat.ltb_spec 2 (List.length (t_shape (tf self) matrix))); simpl.
    + intros [= <-]. left. split; [assumption | reflexivity].
    + intros He. right. split; assumption.
  - intros t. unfold expm.
    destruct (t_shape (tf self) matrix) as [|d0 [|d1 [|d2 rest]]];
      simpl; try discriminate.
    destruct (Z.eqb_spec d0 d1) as [->|]; simpl; [|discriminate].
    intros Ht. split; [exists d1; reflexivity | exact Ht].
Qed.

Lemma slice_inv_expm_outcomes_witness :
  (exists n, t_shape Ref.lib Sample.m22 = [n; n]) /\
  (List.length (t_shape Ref.lib Sample.m22) <= 2)%nat /\
  List.length [0; 1; 2] = List.length [2; 2; -1].
Proof.
  pose proof (slice_inv_expm_outcomes Ref.backend Sample.t234 Sample.m22
                [0; 1; 2] [2; 2; -1] Ref.world0) as [Hs [Hi [_ He]]].
  split; [|split].
  - eapply He. reflexivity.
  - eapply Hi. reflexivity.
  - eapply Hs. reflexivity.
Defined.

(** X3: a tensor returned by a broadcast multiplication is a product computed
    by the library, and the operand that is broadcast had one axis: for the
    right multiplication the product is [tensor1 * tensor2]; for the left
    one it is [tensor2 * r], where [r] is [tensor1] reshaped to the
    concatenation of its shape with [1]s, one less than [tensor2] has
    axes. *)
Theorem broadcast_outcomes (self : TensorFlowBackend)
    (tensor1 tensor2 : Tensor (tf self)) (w : World (tf self)) :
  (forall t, fst (broadcast_right_multiplication self tensor1 tensor2 w) = inr t ->
     List.length (t_shape (tf self) tensor2) = 1%nat /\
     tensor_mul (tf self) tensor1 tensor2 = inr t) /\
  (forall t, fst (broadcast_left_multiplication self tensor1 tensor2 w) = inr t ->
     List.length (t_shape (tf self) tensor1) = 1%nat /\
     exists s r,
       tf_concat (tf self)
         [tf_shape (tf self) tensor1;
          repeat 1 (List.length (t_shape (tf self) tensor2) - 1)] (-1) = inr s /\
       tf_reshape (tf self) tensor1 s = inr r /\
       tensor_mul (tf self) tensor2 r = inr t).
Proof.
  split; intros t.
  - unfold broadcast_right_multiplication.
    destruct (Nat.eqb_spec (List.length (t_shape (tf self) tensor2)) 1);
      simpl; [auto | discriminate].
  - unfold broadcast_left_multiplication.
    destruct (Nat.eqb_spec (List.length (t_shape (tf self) tensor1)) 1);
      simpl; [|discriminate].
    replace (Z.to_nat (Z.of_nat (List.length (t_shape (tf self) tensor2)) - 1))
      with (List.length (t_shape (tf self) tensor2) - 1)%nat by lia.
    run_py.
    destruct (tf_concat _ _ _) as [e1|s]; [discriminate|].
    destruct (tf_reshape _ _ _) as [e2|r] eqn:Hr; [discriminate|].
    simpl. intros Ht. split; [assumption|].
    exists s, r. repeat split; assumption.
Qed.

Lemma broadcast_outcomes_witness :
  List.length (t_shape Ref.lib Sample.v3) = 1%nat /\
  List.length (t_shape Ref.lib Sample.v2) = 1%nat.
Proof.
  pose proof (broadcast_outcomes Ref.backend Sample.m23 Sample.v3 Ref.world0)
    as [Hr _].
  pose proof (broadcast_outcomes Ref.backend Sample.v2 Sample.m23 Ref.world0)
    as [_ Hl].
  split.
  - eapply Hr. reflexivity.
  - eapply Hl. reflexivity.
Defined.

(** ** What the random functions depend on *)

Lemma call_reads_generator_only {L A} (c : Call L) (r : Exn + A) :
  reads_generator_only (call c r).
Proof. intros w1 w2 H. split; [reflexivity | exact H]. Qed.

Lemma draw_reads_generator_only {L A} (c : Call L)
    (f : Gen L -> (Exn + A) * Gen L) :
  reads_generator_only (draw c f).
Proof.
  intros w1 w2 H. unfold draw. rewrite H.
  destruct (f (rng w2)) as [r g]. split; reflexivity.
Qed.

Lemma ret_reads_generator_only {L A} (a : A) :
  reads_generator_only (@ret L A a).
Proof. intros w1 w2 H. split; [reflexivity | exact H]. Qed.

Lemma bind_reads_generator_only {L A B} (m : Py L A) (k : A -> Py L B) :
  reads_generator_only m -> (forall a, reads_generator_only (k a)) ->
  reads_generator_only (bind m k).
Proof.
  intros Hm Hk w1 w2 H. unfold bind.
  destruct (Hm w1 w2 H) as [Hf Hr].
  destruct (m w1) as [[e1|a1] u1], (m w2) as [[e2|a2] u2]; simpl in *;
    try discriminate.
  - injection Hf as <-. split; [reflexivity | exact Hr].
  - injection Hf as <-. apply Hk. exact Hr.
Qed.

(** Two runs of a sequence agree when the first parts agree and the second
    part reads the generator only. *)
Lemma bind_same_outcome {L A B} (m m' : Py L A) (k : A -> Py L B)
    (w w' : World L) :
  same_outcome (m w) (m' w') -> (forall a, reads_generator_only (k a)) ->
  same_outcome (bind m k w) (bind m' k w').
Proof.
  intros [Hf Hr] Hk. unfold bind.
  destruct (m w) as [[e1|a1] u1], (m' w') as [[e2|a2] u2]; simpl in *;
    try discriminate.
  - injection Hf as <-. split; [reflexivity | exact Hr].
  - injection Hf as <-. apply Hk. exact Hr.
Qed.

Lemma two_draws_read_generator_only {L} (c : Call L)
    (f : Gen L -> (Exn + Tensor L) * Gen L) :
  reads_generator_only
    (re <- draw c f ;; im <- draw c f ;; call_complex re im).
Proof.
  apply bind_reads_generator_only; [apply draw_reads_generator_only|].
  intros re. apply bind_reads_generator_only; [apply draw_reads_generator_only|].
  intros im. apply call_reads_generator_only.
Qed.

Lemma rng_after_seed {L} (seed : option Z) (w1 w2 : World L) :
  rng w1 = rng w2 -> rng (after_seed seed w1) = rng (after_seed seed w2).
Proof.
  intros H. destruct seed as [s|]; simpl; [|exact H].
  destruct (s =? 0); simpl; [exact H | rewrite H; reflexivity].
Qed.

Lemma randn_reads_generator_only (self : TensorFlowBackend) (shape : list Z)
    (dtype : option DType) (seed : option Z) :
  reads_generator_only (randn self shape dtype seed).
Proof.
  intros w1 w2 H. rewrite !randn_after_seed. cbv zeta.
  pose proof (rng_after_seed seed w1 w2 H) as H0.
  destruct (is_complex (dtype_or_float64 dtype)).
  - apply two_draws_read_generator_only. exact H0.
  - apply draw_reads_generator_only. exact H0.
Qed.

Lemma reseed_draw_reads_generator_only {L} (s : Z) (c : Call L)
    (f : Gen L -> (Exn + Tensor L) * Gen L) :
  reads_generator_only (call_set_seed s ;; a <- draw c f ;; ret a).
Proof.
  apply bind_reads_generator_only; [apply draw_reads_generator_only|].
  intros _. apply bind_reads_generator_only; [apply draw_reads_generator_only|].
  intros a. apply ret_reads_generator_only.
Qed.

Lemma random_uniform_reads_generator_only (self : TensorFlowBackend)
    (shape : list Z) (boundaries : PyFloat * PyFloat) (dtype : option DType)
    (seed : option Z) :
  reads_generator_only (random_uniform self shape boundaries dtype seed).
Proof.
  intros w1 w2 H. rewrite !random_uniform_after_seed. cbv zeta.
  pose proof (rng_after_seed seed w1 w2 H) as H0.
  destruct (is_complex (dtype_or_float64 dtype)).
  - apply two_draws_read_generator_only. exact H0.
  - apply reseed_draw_reads_generator_only. exact H0.
Qed.

(** X4: with a seed other than [0], [randn] and [random_uniform] are
    reproducible: as setting a seed replaces the state of the generator, a
    call gives the same outcome and leaves the generator in the same state
    whatever happened before it. *)
Theorem seeded_calls_are_reproducible (self : TensorFlowBackend)
    (Hlib : set_seed_resets (tf self))
    (shape : list Z) (boundaries : PyFloat * PyFloat) (dtype : option DType)
    (s : Z) (Hs : s <> 0) (w w' : World (tf self)) :
  same_outcome (randn self shape dtype (Some s) w)
               (randn self shape dtype (Some s) w') /\
  same_outcome (random_uniform self shape boundaries dtype (Some s) w)
               (random_uniform self shape boundaries dtype (Some s) w').
Proof.
  assert (H0 : rng (after_seed (Some s) w) = rng (after_seed (Some s) w')).
  { simpl. apply Z.eqb_neq in Hs. rewrite Hs. simpl. apply Hlib. }
  split.
  - rewrite !randn_after_seed. cbv zeta.
    destruct (is_complex (dtype_or_float64 dtype)).
    + apply two_draws_read_generator_only. exact H0.
    + apply draw_reads_generator_only. exact H0.
  - rewrite !random_uniform_after_seed. cbv zeta.
    destruct (is_complex (dtype_or_float64 dtype)).
    + apply two_draws_read_generator_only. exact H0.
    + apply reseed_draw_reads_generator_only. exact H0.
Qed.

Lemma seeded_calls_are_reproducible_witness :
  same_outcome
    (randn Ref.backend [2; 3] (Some complex64) (Some 7) Ref.world0)
    (randn Ref.backend [2; 3] (Some complex64) (Some 7)
       (snd (randn Ref.backend [4] None None Ref.world0))).
Proof.
  apply (seeded_calls_are_reproducible Ref.backend Ref_set_seed_resets [2; 3]
           Sample.unit_interval (Some complex64) 7 ltac:(lia)).
Defined.

(** X5: [random_uniform] with a dtype that is not complex leaves the generator
    in the state that follows seed 10: whatever the seed passed to it and
    whatever the state before, a [randn] that comes after it without a seed
    has one and the same outcome. *)
Theorem random_uniform_pins_later_draws (self : TensorFlowBackend)
    (Hlib : set_seed_resets (tf self))
    (shape shape' : list Z) (boundaries : PyFloat * PyFloat)
    (dtype dtype' : option DType)
    (Hreal : is_complex (match dtype with Some d => d | None => float64 end)
             = false)
    (seed seed' : option Z) (w w' : World (tf self)) :
  same_outcome
    ((_ <- random_uniform self shape boundaries dtype seed ;;
      randn self shape' dtype' None) w)
    ((_ <- random_uniform self shape boundaries dtype seed' ;;
      randn self shape' dtype' None) w').
Proof.
  apply bind_same_outcome; [|intros a; apply randn_reads_generator_only].
  rewrite !random_uniform_after_seed. cbv zeta.
  change (dtype_or_float64 dtype)
    with (match dtype with Some d => d | None => float64 end).
  rewrite Hreal. unfold call_random_uniform. rewrite !reseed_then_draw.
  unfold reseeded. cbn [rng].
  rewrite (Hlib 10 (rng (after_seed seed w)) (rng (after_seed seed' w'))).
  split; reflexivity.
Qed.

Lemma random_uniform_pins_later_draws_witness :
  exists t,
    fst ((_ <- random_uniform Ref.backend [2] Sample.unit_interval None (Some 5) ;;
          randn Ref.backend [3] None None) Ref.world0) = inr t /\
    fst ((_ <- random_uniform Ref.backend [2] Sample.unit_interval None None ;;
          randn Ref.backend [3] None None)
           (snd (randn Ref.backend [4] None (Some 99) Ref.world0))) = inr t /\
    entry Ref.lib t [2] = Ref.Sample Ref.Normal float64 10 1 2.
Proof.
  pose proof (random_uniform_pins_later_draws Ref.backend Ref_set_seed_resets
                [2] [3] Sample.unit_interval None None eq_refl (Some 5) None
                Ref.world0
                (snd (randn Ref.backend [4] None (Some 99) Ref.world0)))
    as [Hf _].
  rewrite <- Hf. eexists. split; [reflexivity|]. split; reflexivity.
Defined.

(** A draw that the library refuses, in the branch for complex dtypes. *)
Lemma two_draws_first_fails {L} (c : Call L)
    (f : Gen L -> (Exn + Tensor L) * Gen L) (w0 : World L)
    (e : Exn) (g1 : Gen L) :
  f (rng w0) = (inl e, g1) ->
  (re <- draw c f ;; im <- draw c f ;; call_complex re im) w0 =
  (inl e, drawn c g1 w0).
Proof. intros H1. run_py. rewrite H1. reflexivity. Qed.

Lemma two_draws_second_fails {L} (c : Call L)
    (f : Gen L -> (Exn + Tensor L) * Gen L) (w0 : World L)
    (re : Tensor L) (e : Exn) (g1 g2 : Gen L) :
  f (rng w0) = (inr re, g1) -> f g1 = (inl e, g2) ->
  (re' <- draw c f ;; im <- draw c f ;; call_complex re' im) w0 =
  (inl e, drawn c g2 (drawn c g1 w0)).
Proof. intros H1 H2. run_py. rewrite H1. simpl. rewrite H2. reflexivity. Qed.

(** X6: with a complex dtype, an exception of the library during a draw leaves
    [randn] and [random_uniform] as it is: when the draw of the real part
    raises, the imaginary part is not drawn; when the draw of the imaginary
    part raises, [tf.complex] is not called.  The generator stays where the
    failed draw left it. *)
Theorem complex_draw_failure_propagates (self : TensorFlowBackend)
    (shape : list Z) (boundaries : PyFloat * PyFloat) (dtype : option DType)
    (seed : option Z) (w : World (tf self))
    (Hcomplex : is_complex (match dtype with Some d => d | None => float64 end)
                = true) :
  let rd := real_dtype (match dtype with Some d => d | None => float64 end) in
  let w0 := after_seed seed w in
  let normal := tf_random_normal (tf self) shape rd in
  let uniform :=
    tf_random_uniform (tf self) shape (fst boundaries) (snd boundaries) rd in
  let c_normal := Call_random_normal shape rd in
  let c_uniform :=
    Call_random_uniform shape (fst boundaries) (snd boundaries) rd in
  (forall e g1, normal (rng w0) = (inl e, g1) ->
     randn self shape dtype seed w = (inl e, drawn c_normal g1 w0)) /\
  (forall re e g1 g2, normal (rng w0) = (inr re, g1) -> normal g1 = (inl e, g2) ->
     randn self shape dtype seed w =
     (inl e, drawn c_normal g2 (drawn c_normal g1 w0))) /\
  (forall e g1, uniform (rng w0) = (inl e, g1) ->
     random_uniform self shape boundaries dtype seed w =
     (inl e, drawn c_uniform g1 w0)) /\
  (forall re e g1 g2, uniform (rng w0) = (inr re, g1) -> uniform g1 = (inl e, g2) ->
     random_uniform self shape boundaries dtype seed w =
     (inl e, drawn c_uniform g2 (drawn c_uniform g1 w0))).
Proof.
  intros rd w0 normal uniform c_normal c_uniform.
  change (match dtype with Some d => d | None => float64 end)
    with (dtype_or_float64 dtype) in Hcomplex.
  split; [|split; [|split]].
  - intros e g1 H1. rewrite randn_after_seed. cbv zeta. rewrite Hcomplex.
    apply (two_draws_first_fails c_normal normal w0 e g1 H1).
  - intros re e g1 g2 H1 H2. rewrite randn_after_seed. cbv zeta.
    rewrite Hcomplex.
    apply (two_draws_second_fails c_normal normal w0 re e g1 g2 H1 H2).
  - intros e g1 H1. rewrite random_uniform_after_seed. cbv zeta.
    rewrite Hcomplex.
    apply (two_draws_first_fails c_uniform uniform w0 e g1 H1).
  - intros re e g1 g2 H1 H2. rewrite random_uniform_after_seed. cbv zeta.
    rewrite Hcomplex.
    apply (two_draws_second_fails c_uniform uniform w0 re e g1 g2 H1 H2).
Qed.

Lemma complex_draw_failure_propagates_witness :
  randn Ref.backend [2; -3] (Some complex64) None Ref.world0 =
  (inl (InvalidArgumentError "Dimension must be non-negative"),
   record (Call_random_normal [2; -3] float32) Ref.world0).
Proof.
  pose proof (complex_draw_failure_propagates Ref.backend [2; -3]
                Sample.unit_interval (Some complex64) None Ref.world0 eq_refl)
    as [H1 _].
  apply (H1 (InvalidArgumentError "Dimension must be non-negative")
            (rng Ref.world0)).
  reflexivity.
Defined.

Lemma floating_not_complex (d : DType) :
  floating d = true -> is_complex d = false.
Proof. destruct d; simpl; intros H; try discriminate H; reflexivity. Qed.

(** X7: [randn] and [random_uniform] return a tensor of the requested shape and
    dtype, for a shape without negative dimension and a floating point or
    complex dtype ([None] is [float64]): for a complex dtype the two draws
    are made in its real dtype and [tf.complex] gives back the dtype that
    was requested. *)
Theorem random_tensor_has_requested_shape_and_dtype (self : TensorFlowBackend)
    (Hdraws : draws_documented (tf self))
    (Hcomplex : complex_documented (tf self))
    (shape : list Z) (Hshape : Forall (fun n => 0 <= n) shape)
    (boundaries : PyFloat * PyFloat) (dtype : option DType)
    (Hdtype : let d := match dtype with Some d => d | None => float64 end in
              floating d = true \/ d = complex64 \/ d = complex128)
    (seed : option Z) (w : World (tf self)) :
  let d := match dtype with Some d => d | None => float64 end in
  (exists t,
     fst (randn self shape dtype seed w) = inr t /\
     t_shape (tf self) t = shape /\ t_dtype (tf self) t = d) /\
  (exists t,
     fst (random_uniform self shape boundaries dtype seed w) = inr t /\
     t_shape (tf self) t = shape /\ t_dtype (tf self) t = d).
Proof.
  intros d. cbv zeta in Hdtype. fold d in Hdtype.
  assert (Hd : dtype_or_float64 dtype = d) by reflexivity.
  destruct Hdtype as [Hf | Hc].
  - pose proof (floating_not_complex d Hf) as Hb. split.
    + rewrite randn_after_seed. cbv zeta. rewrite Hd, Hb.
      unfold call_random_normal. rewrite one_draw.
      destruct (Hdraws shape d (rng (after_seed seed w)) Hshape Hf)
        as [[t [g' [Ht [Hs Hdt]]]] _].
      rewrite Ht. exists t. repeat split; assumption.
    + rewrite random_uniform_after_seed. cbv zeta. rewrite Hd, Hb.
      unfold call_random_uniform. rewrite reseed_then_draw.
      destruct (Hdraws shape d (rng (reseeded 10 (after_seed seed w))) Hshape Hf)
        as [_ Hu].
      destruct (Hu (fst boundaries) (snd boundaries)) as [t [g' [Ht [Hs Hdt]]]].
      rewrite Ht. exists t. repeat split; assumption.
  - pose proof (proj2 (is_complex_true d) Hc) as Hb.
    pose proof (floating_real_dtype d Hc) as Hf.
    split.
    + destruct (Hdraws shape (real_dtype d) (rng (after_seed seed w)) Hshape Hf)
        as [[re [g1 [Hre [Hres Hred]]]] _].
      destruct (Hdraws shape (real_dtype d) g1 Hshape Hf)
        as [[im [g2 [Him [Hims Himd]]]] _].
      destruct (Hcomplex re im d Hc) as [c [Hcc [Hcs Hcd]]];
        [congruence | assumption | assumption |].
      rewrite randn_after_seed. cbv zeta. rewrite Hd, Hb.
      unfold call_random_normal.
      rewrite (two_draws_combined _ _ _ re im g1 g2 Hre Him).
      exists c. split; [exact Hcc|]. split; [congruence | exact Hcd].
    + destruct (Hdraws shape (real_dtype d) (rng (after_seed seed w)) Hshape Hf)
        as [_ Hu1].
      destruct (Hu1 (fst boundaries) (snd boundaries))
        as [re [g1 [Hre [Hres Hred]]]].
      destruct (Hdraws shape (real_dtype d) g1 Hshape Hf) as [_ Hu2].
      destruct (Hu2 (fst boundaries) (snd boundaries))
        as [im [g2 [Him [Hims Himd]]]].
      destruct (Hcomplex re im d Hc) as [c [Hcc [Hcs Hcd]]];
        [congruence | assumption | assumption |].
      rewrite random_uniform_after_seed. cbv zeta. rewrite Hd, Hb.
      unfold call_random_uniform.
      rewrite (two_draws_combined _ _ _ re im g1 g2 Hre Him).
      exists c. split; [exact Hcc|]. split; [congruence | exact Hcd].
Qed.

Lemma random_tensor_has_requested_shape_and_dtype_witness :
  (exists t,
     fst (randn Ref.backend [2; 3] (Some complex128) (Some 4) Ref.world0) = inr t /\
     t_shape Ref.lib t = [2; 3] /\ t_dtype Ref.lib t = complex128) /\
  (exists t,
     fst (random_uniform Ref.backend [2; 3] Sample.unit_interval
            (Some complex128) (Some 4) Ref.world0) = inr t /\
     t_shape Ref.lib t = [2; 3] /\ t_dtype Ref.lib t = complex128).
Proof.
  apply (random_tensor_has_requested_shape_and_dtype Ref.backend
           Ref_draws_documented Ref_complex_documented [2; 3]
           ltac:(repeat constructor; lia) Sample.unit_interval
           (Some complex128) ltac:(simpl; auto) (Some 4) Ref.world0).
Defined.

Lemma set_seeds_after_seed {L} (seed : option Z) (w : World L) :
  set_seeds (calls (after_seed seed w)) = set_seeds (calls w) ++ seed_used seed.
Proof.
  destruct seed as [s|]; simpl; [|rewrite app_nil_r; reflexivity].
  destruct (s =? 0); simpl; [rewrite app_nil_r; reflexivity|].
  rewrite set_seeds_app. reflexivity.
Qed.

(** X8: the [tf.random.set_seed] calls of the random functions: [randn]
    issues one, with the seed it was given, when that seed is not [None]
    and not [0], and none otherwise.  [random_uniform] does the same, and
    with a dtype that is not complex it then issues [set_seed(10)]. *)
Theorem set_seed_calls_issued (self : TensorFlowBackend) (shape : list Z)
    (boundaries : PyFloat * PyFloat) (dtype : option DType) (seed : option Z)
    (w : World (tf self)) :
  let d := match dtype with Some d => d | None => float64 end in
  set_seeds (calls (snd (randn self shape dtype seed w))) =
  set_seeds (calls w) ++ seed_used seed /\
  set_seeds (calls (snd (random_uniform self shape boundaries dtype seed w))) =
  set_seeds (calls w) ++ seed_used seed ++ (if is_complex d then [] else [10]).
Proof.
  intros d. split.
  - rewrite randn_set_seeds. apply set_seeds_after_seed.
  - rewrite random_uniform_set_seeds, set_seeds_after_seed, <- app_assoc.
    reflexivity.
Qed.

(** A library call followed by the rest of a method. *)
Lemma bind_call_run {L A B} (c : Call L) (r : Exn + A) (k : A -> Py L B)
    (w : World L) :
  bind (call c r) k w =
  match r with
  | inr a => k a (record c w)
  | inl e => (inl e, record c w)
  end.
Proof. unfold bind, call. destruct r; reflexivity. Qed.

(** ** Methods in sequence *)

(** X9: the matrix that [eye] builds, passed on to [expm] and [inv].  The
    square one ([M] omitted) passes the checks of both, which forward it to
    the library.  One with [M] columns, [M] other than [N], is refused by
    [expm] with the [ValueError] that names [N*M], while [inv], which only
    counts axes, forwards it. *)
Theorem eye_then_expm_or_inv (self : TensorFlowBackend)
    (Hlib : eye_documented (tf self))
    (N : Z) (HN : 0 <= N) (dtype : option DType) (w : World (tf self)) :
  let d := match dtype with Some given => given | None => float64 end in
  (exists t,
     tf_eye (tf self) N None d = inr t /\
     (t' <- eye self N dtype None ;; expm self t') w =
     (tf_linalg_expm (tf self) t,
      record (Call_expm t) (record (Call_eye N None d) w)) /\
     (t' <- eye self N dtype None ;; inv self t') w =
     (tf_linalg_inv (tf self) t,
      record (Call_inv t) (record (Call_eye N None d) w))) /\
  (forall M, 0 <= M -> M <> N ->
   exists t,
     tf_eye (tf self) N (Some M) d = inr t /\
     (t' <- eye self N dtype (Some M) ;; expm self t') w =
     (inl (ValueError
        ("input to tensorflow backend method `expm` only supportsN*N matrix, "
         ++ str_int N ++ "*" ++ str_int M ++ " matrix is given")%string),
      record (Call_eye N (Some M) d) w) /\
     (t' <- eye self N dtype (Some M) ;; inv self t') w =
     (tf_linalg_inv (tf self) t,
      record (Call_inv t) (record (Call_eye N (Some M) d) w))).
Proof.
  intros d.
  assert (Hd : dtype_or_float64 dtype = d) by reflexivity.
  split.
  - destruct (Hlib N None d HN) as [t [Ht [Hs _]]]; [discriminate|].
    exists t. split; [exact Ht|].
    unfold eye, expm, inv, call_eye. cbv zeta.
    rewrite Hd, !bind_call_run, Ht, Hs. simpl.
    rewrite Z.eqb_refl. split; reflexivity.
  - intros M HM Hne.
    destruct (Hlib N (Some M) d HN) as [t [Ht [Hs _]]];
      [intros m [= <-]; exact HM|].
    exists t. split; [exact Ht|].
    unfold eye, expm, inv, call_eye. cbv zeta.
    rewrite Hd, !bind_call_run, Ht, Hs. simpl.
    assert (E : (N =? M) = false) by (apply Z.eqb_neq; congruence).
    rewrite E. split; reflexivity.
Qed.

Lemma eye_then_expm_or_inv_witness :
  raises_ValueError
    (fst ((t' <- eye Ref.backend 2 None (Some 3) ;; expm Ref.backend t')
            Ref.world0)) = true /\
  exists u,
    fst ((t' <- eye Ref.backend 2 None None ;; expm Ref.backend t')
           Ref.world0) = inr u.
Proof.
  pose proof (eye_then_expm_or_inv Ref.backend Ref_eye_documented 2
                ltac:(lia) None Ref.world0) as [[t [Ht [He _]]] HM].
  split.
  - destruct (HM 3 ltac:(lia) ltac:(lia)) as [t3 [_ [He3 _]]].
    rewrite He3. reflexivity.
  - rewrite He. injection Ht as <-. eexists. reflexivity.
Defined.

(** ** The reshape of the left multiplication *)

Lemma broadcast_dim_1_l (d : Z) : broadcast_dim 1 d = Some d.
Proof.
  unfold broadcast_dim.
  destruct (Z.eqb_spec 1 d); [subst; reflexivity | reflexivity].
Qed.

Lemma broadcast_shape_scalar_l (n : Z) : broadcast_shape [] [n] = Some [n].
Proof.
  change (broadcast_shape [] [n])
    with (match broadcast_dim 1 n, Some (@nil Z) with
          | Some d, Some r => Some (d :: r)
          | _, _ => None
          end).
  rewrite broadcast_dim_1_l. reflexivity.
Qed.

(** X10: for a vector [tensor1] of length [n] and any [tensor2], whatever its
    shape, [broadcast_left_multiplication] asks for a reshape of [tensor1]
    to [n, 1, ..., 1], with one [1] less than [tensor2] has axes and none
    when [tensor2] has no axis.  The target has as many entries as
    [tensor1], so the reshape gives a tensor [r] with the entries of
    [tensor1] along its first axis, and the method returns or raises what
    [tensor2 * r] does.  For a [tensor2] without axes the result is the
    vector with every entry multiplied by the one entry of [tensor2]. *)
Theorem broadcast_left_reshape_is_well_formed (self : TensorFlowBackend)
    (Hshape : shape_is_static (tf self)) (Hconcat : concat_appends (tf self))
    (Hreshape : reshape_row_major (tf self))
    (tensor1 tensor2 : Tensor (tf self)) (w : World (tf self)) (n : Z)
    (H1 : t_shape (tf self) tensor1 = [n]) (Hn : 0 <= n) :
  let k := (List.length (t_shape (tf self) tensor2) - 1)%nat in
  let s := n :: repeat 1 k in
  exists r,
    tf_reshape (tf self) tensor1 s = inr r /\
    t_shape (tf self) r = s /\
    (forall i, 0 <= i < n ->
       entry (tf self) r (i :: repeat 0 k) = entry (tf self) tensor1 [i]) /\
    broadcast_left_multiplication self tensor1 tensor2 w =
    (tensor_mul (tf self) tensor2 r,
     {| rng := rng w;
        calls := calls w ++ [Call_shape tensor1;
                             Call_concat [[n]; repeat 1 k] (-1);
                             Call_reshape tensor1 s;
                             Call_mul tensor2 r] |}) /\
    (mul_broadcasts (tf self) ->
     t_shape (tf self) tensor2 = [] ->
     t_dtype (tf self) tensor1 = t_dtype (tf self) tensor2 ->
     exists c,
       fst (broadcast_left_multiplication self tensor1 tensor2 w) = inr c /\
       t_shape (tf self) c = [n] /\
       forall i, 0 <= i < n ->
         entry (tf self) c [i] =
         smul (tf self) (entry (tf self) tensor2 [])
                        (entry (tf self) tensor1 [i])).
Proof.
  intros k s.
  destruct (Hreshape tensor1 s) as [r [Hr [Hrs [Hrd Hre]]]].
  { constructor; [exact Hn|]. apply Forall_forall.
    intros x Hx. apply repeat_spec in Hx. lia. }
  { rewrite H1. unfold s. rewrite !numel_cons, numel_repeat_1. reflexivity. }
  assert (Hentry : forall i, 0 <= i < n ->
            entry (tf self) r (i :: repeat 0 k) = entry (tf self) tensor1 [i]).
  { intros i Hi. apply Hre.
    - rewrite H1. constructor; [exact Hi | constructor].
    - constructor; [exact Hi | apply in_range_ones].
    - rewrite H1. simpl. rewrite ravel_zeros, numel_repeat_1. reflexivity. }
  assert (Hrun : broadcast_left_multiplication self tensor1 tensor2 w =
            (tensor_mul (tf self) tensor2 r,
             {| rng := rng w;
                calls := calls w ++ [Call_shape tensor1;
                                     Call_concat [[n]; repeat 1 k] (-1);
                                     Call_reshape tensor1 s;
                                     Call_mul tensor2 r] |})).
  { assert (Hk : Z.to_nat (Z.of_nat (List.length (t_shape (tf self) tensor2)) - 1)
                 = k) by (unfold k; lia).
    unfold broadcast_left_multiplication. rewrite H1, Hk.
    change (negb (List.length [n] =? 1)%nat) with false. cbv iota.
    run_py. rewrite Hshape, H1, Hconcat.
    change ([n] ++ repeat 1 k) with s.
    rewrite Hr. cbn [rng calls].
    rewrite <- !app_assoc. reflexivity. }
  exists r. split; [exact Hr|]. split; [exact Hrs|].
  split; [exact Hentry|]. split; [exact Hrun|].
  intros Hmul H2 Hd.
  assert (Hk0 : k = 0%nat) by (unfold k; rewrite H2; reflexivity).
  destruct (Hmul tensor2 r [n]) as [c [Hc [Hcs Hce]]].
  { rewrite Hrd. symmetry. exact Hd. }
  { rewrite H2, Hrs. unfold s. rewrite Hk0. apply broadcast_shape_scalar_l. }
  exists c. split; [rewrite Hrun; exact Hc|]. split; [exact Hcs|].
  intros i Hi.
  assert (Hin : in_range [n] [i]) by (constructor; [exact Hi | constructor]).
  rewrite (Hce [i] Hin), H2, Hrs. unfold s. rewrite Hk0. cbn [repeat].
  change (bidx [] [i]) with (@nil Z).
  rewrite (bidx_same_rank [n] [i] Hin). f_equal.
  specialize (Hentry i Hi). rewrite Hk0 in Hentry. exact Hentry.
Qed.

Lemma broadcast_left_reshape_is_well_formed_witness :
  exists c,
    fst (broadcast_left_multiplication Ref.backend Sample.v2 scalar3 Ref.world0)
    = inr c /\
    t_shape Ref.lib c = [2] /\
    entry Ref.lib c [1] = Ref.Product (Ref.Lit float64 3) (Ref.Lit float64 11).
Proof.
  destruct (broadcast_left_reshape_is_well_formed Ref.backend
              Ref_shape_is_static Ref_concat_appends Ref_reshape_row_major
              Sample.v2 scalar3 Ref.world0 2 eq_refl ltac:(lia))
    as [r [_ [_ [_ [_ Hscalar]]]]].
  destruct (Hscalar Ref_mul_broadcasts eq_refl eq_refl) as [c [Hc [Hs He]]].
  exists c. split; [exact Hc|]. split; [exact Hs|].
  apply (He 1). lia.
Defined.

(** X11: a seed is not scoped to the call that sets it: after a [randn] with a
    seed other than [0], a [randn] without seed is determined by that seed
    as well, whatever the state of the generator was before the two
    calls. *)
Theorem seed_outlives_the_call (self : TensorFlowBackend)
    (Hlib : set_seed_resets (tf self))
    (shape shape' : list Z) (dtype dtype' : option DType)
    (s : Z) (Hs : s <> 0) (w w' : World (tf self)) :
  same_outcome
    ((_ <- randn self shape dtype (Some s) ;; randn self shape' dtype' None) w)
    ((_ <- randn self shape dtype (Some s) ;; randn self shape' dtype' None) w').
Proof.
  apply bind_same_outcome; [|intros a; apply randn_reads_generator_only].
  assert (H0 : rng (after_seed (Some s) w) = rng (after_seed (Some s) w')).
  { simpl. apply Z.eqb_neq in Hs. rewrite Hs. simpl. apply Hlib. }
  rewrite !randn_after_seed. cbv zeta.
  destruct (is_complex (dtype_or_float64 dtype)).
  - apply two_draws_read_generator_only. exact H0.
  - apply draw_reads_generator_only. exact H0.
Qed.

Lemma seed_outlives_the_call_witness :
  exists t,
    fst ((_ <- randn Ref.backend [2] None (Some 7) ;;
          randn Ref.backend [3] None None) Ref.world0) = inr t /\
    entry Ref.lib t [2] = Ref.Sample Ref.Normal float64 7 1 2 /\
    fst ((_ <- randn Ref.backend [2] None (Some 7) ;;
          randn Ref.backend [3] None None)
           (snd (randn Ref.backend [4] None (Some 99) Ref.world0))) = inr t.
Proof.
  pose proof (seed_outlives_the_call Ref.backend Ref_set_seed_resets [2] [3]
                None None 7 ltac:(lia) Ref.world0
                (snd (randn Ref.backend [4] None (Some 99) Ref.world0)))
    as [Hf _].
  rewrite <- Hf. eexists. split; [reflexivity|]. split; reflexivity.
Defined.
